(** * Three Beans Cafe backend: routes, models and error handling

    A shallow embedding of the Express application of [src/server.js], its
    routers [src/controllers/UserRouter.js] and [src/controllers/MenuRouter.js]
    and the mongoose schemas of [src/models/ItemModel.js].

    - A collection of the document store is a list of documents, in insertion
      order; a document is a record whose optional fields are [option]s
      ([None] is JavaScript's [undefined]).
    - An [async] handler is a computation in the monad [DB]: it threads the
      store, and ends either with the response it sent or with the error that
      its [catch] block hands to [next].
    - What the sources import from outside [src/] (bcryptjs, the ObjectId cast
      of mongoose and the messages of its errors, utils/auth.js, the routers
      of orders and favourites) is a variable of the section [Backend]: every
      theorem holds for each behaviour they may have. *)

From Stdlib Require Import String Ascii List Bool QArith Lia.
From stdpp Require Import base option list strings gmap.

Set Warnings "-register-all".

Local Open Scope string_scope.
Local Open Scope list_scope.

(** ** Documents *)

(** An ObjectId in the form the code handles it: the string that
    [_id.toString()] gives and that a route parameter or a token carries. *)
Abbreviation ObjectId := string (only parsing).

(** A document of [UserModel]. [src/models/UserModel.js] is not among the
    sources: the fields are those the routes read and write
    ([email], [password], [name], [birthday]) and the [admin] flag that the
    tests set. *)
Module User.
Record t := mk {
  _id : ObjectId;
  email : option string;
  password : option string;
  name : option string;
  birthday : option string;
  admin : bool
}.
End User.

(** A document of [CategoryModel] ([categorySchema]). *)
Module Category.
Record t := mk {
  _id : ObjectId;
  name : option string
}.
End Category.

(** A document of [ItemModel] ([itemSchema]): [Number] is a rational. *)
Module Item.
Record t := mk {
  _id : ObjectId;
  name : option string;
  category : option ObjectId;
  price : option Q;
  quantity : option Q;
  description : option string;
  image : option string
}.
End Item.

(** The three collections the routes of [src/] touch. *)
Record Store := mkStore {
  users : list User.t;
  items : list Item.t;
  categories : list Category.t
}.

(** ** Schemas *)

(** What mongoose reads in a schema declaration, as far as the schemas
    below use it. *)
Module Schema.
Inductive SchemaType := String_ | Number_ | ObjectId_ | Boolean_.

(** The options a path of the schemas declares. *)
Record Path := mk {
  path : string;
  type : SchemaType;
  required : bool;
  unique : bool;
  ref : option string
}.

(** The value a document holds at a path, after the cast to the path's
    type. *)
Inductive Value :=
| VString (s : string)
| VNumber (q : Q)
| VObjectId (o : ObjectId)
| VBoolean (b : bool).

(** mongoose's [required] validator: the value is there, and a string is
    not empty. *)
Definition checkRequired (v : option Value) : bool :=
  match v with
  | None => false
  | Some (VString s) => negb (String.eqb s "")
  | Some (VNumber _) => true
  | Some (VObjectId _) => true
  | Some (VBoolean _) => true
  end.

(** mongoose casts a value to the type of its path when the document is
    built, and a value that does not cast fails the validation: of the
    values a document can hold here, that is an identifier that is no
    ObjectId ([cast] is mongoose's cast of a string to one). *)
Definition checkCast (cast : string -> option string) (v : option Value) : bool :=
  match v with
  | Some (VObjectId o) => match cast o with Some _ => true | None => false end
  | _ => true
  end.

(** The casts of a document, read through [get], at the paths of a
    schema. *)
Definition casts {D : Type} (cast : string -> option string) (schema : list Path)
    (get : D -> string -> option Value) (doc : D) : bool :=
  forallb (fun p => checkCast cast (get doc (path p))) schema.

(** Validation of a document, read through [get], against a schema: the
    validators of every path must pass. The schemas declare no validator
    but [required] ([unique] builds an index, it validates nothing). *)
Definition validate {D : Type} (schema : list Path) (get : D -> string -> option Value)
    (doc : D) : bool :=
  forallb (fun p => implb (required p) (checkRequired (get doc (path p)))) schema.
End Schema.

Definition categorySchema : list Schema.Path :=
  [ Schema.mk "name" Schema.String_ true true None ].

Definition itemSchema : list Schema.Path :=
  [ Schema.mk "name" Schema.String_ true true None;
    Schema.mk "category" Schema.ObjectId_ true false (Some "Category");
    Schema.mk "price" Schema.Number_ true false None;
    Schema.mk "quantity" Schema.Number_ true false None;
    Schema.mk "description" Schema.String_ false false None;
    Schema.mk "image" Schema.String_ false false None ].

(** The value of an item at a path of [itemSchema]. *)
Definition item_get (d : Item.t) (p : string) : option Schema.Value :=
  if String.eqb p "name" then Schema.VString <$> Item.name d
  else if String.eqb p "category" then Schema.VObjectId <$> Item.category d
  else if String.eqb p "price" then Schema.VNumber <$> Item.price d
  else if String.eqb p "quantity" then Schema.VNumber <$> Item.quantity d
  else if String.eqb p "description" then Schema.VString <$> Item.description d
  else if String.eqb p "image" then Schema.VString <$> Item.image d
  else None.


(** A document of [CustomisationModel] ([customisationSchema]). *)
Module Customisation.
Record t := mk {
  _id : ObjectId;
  category : option string;
  name : option string;
  quantity : option Q;
  price : option Q
}.
End Customisation.

(** The further options [customisationSchema] writes on a path: [enum],
    [default], and the names of the options that mongoose does not know and
    so does not read. *)
Record PathOptions := mkOptions {
  base : Schema.Path;
  enum : option (list string);
  default : option Schema.Value;
  unknown : list string
}.

(** [category] is written with [equired: true]: the path is not required. *)
Definition customisationSchema : list PathOptions :=
  [ mkOptions (Schema.mk "category" Schema.String_ false false None)
      (Some ["milk"; "sugar"; "size"; "extra"]) None ["equired"];
    mkOptions (Schema.mk "name" Schema.String_ true true None) None None [];
    mkOptions (Schema.mk "quantity" Schema.Number_ true false None) None None [];
    mkOptions (Schema.mk "price" Schema.Number_ true false None) None
      (Some (Schema.VNumber (0 # 1))) [] ].

(** The value of a customisation at a path of [customisationSchema]. *)
Definition customisation_get (d : Customisation.t) (p : string) : option Schema.Value :=
  if String.eqb p "category" then Schema.VString <$> Customisation.category d
  else if String.eqb p "name" then Schema.VString <$> Customisation.name d
  else if String.eqb p "quantity" then Schema.VNumber <$> Customisation.quantity d
  else if String.eqb p "price" then Schema.VNumber <$> Customisation.price d
  else None.

(** The value validation sees at a path: the document's, or the path's
    default when the document has none. *)
Definition with_default (v : option Schema.Value) (o : PathOptions) : option Schema.Value :=
  match v with
  | Some x => Some x
  | None => default o
  end.

(** mongoose's [enum] validator: a value that is there must be one of the
    listed strings. *)
Definition checkEnum (o : PathOptions) (v : option Schema.Value) : bool :=
  match enum o, v with
  | None, _ => true
  | Some _, None => true
  | Some values, Some (Schema.VString s) => existsb (String.eqb s) values
  | Some _, Some _ => false
  end.

(** Validation against a schema with these options: defaults are filled
    in, then [required] and [enum] are checked on every path. *)
Definition validate_options {D : Type} (schema : list PathOptions)
    (get : D -> string -> option Schema.Value) (doc : D) : bool :=
  forallb
    (fun o =>
       let v := with_default (get doc (Schema.path (base o))) o in
       implb (Schema.required (base o)) (Schema.checkRequired v) && checkEnum o v)
    schema.

(** A customisation is accepted for persistence when [customisationSchema]
    validates it. *)
Definition customisation_accepted (d : Customisation.t) : bool :=
  validate_options customisationSchema customisation_get d.

(** ** Requests, responses and errors *)

(** The methods the CORS configuration of [server.js] lists. *)
Inductive Method := GET | POST | PATCH | DELETE.

(** A request as the handlers read it, after [express.json()] and [cors]
    (which are not modelled) let it through. [path] is the URL path split at
    its slashes, in its non-empty segments; [token] is the bearer token of
    the Authorization header, when the request has one; [body] is the parsed
    JSON body, its members being strings; [params] is filled by the route
    that matches and [userId] by the authentication middleware. *)
Record Request := mkRequest {
  method : Method;
  path : list string;
  token : option string;
  body : gmap string string;
  params : gmap string string;
  userId : option string
}.

(** What [response.json] is given: a JavaScript object whose leaves are
    strings and documents. *)
Inductive Json :=
| JString (s : string)
| JUser (u : User.t)
| JItem (i : Item.t)
| JCategory (c : Category.t)
| JArray (l : list Json)
| JObject (members : list (string * Json)).

Record Response := mkResponse {
  status : nat;
  json : Json
}.

(** A JavaScript error object: its [status] property, when it has one, and
    its message. *)
Record Error := mkError {
  error_status : option nat;
  error_message : string
}.

(** The failures of the document store that reach a handler's [catch]. *)
Inductive MongooseFailure :=
| CastFailed (model path value : string)
| ValidationFailed (model : string)
| DuplicateKey (model path : string)
| DocumentNotFound (model : string).

(** The argument [createJwt] is called with: an identifier at signup, the
    whole document at login and update. *)
Inductive JwtSubject :=
| SubjectId (id : ObjectId)
| SubjectUser (u : User.t).

(** ** The monad of the handlers *)

(** A computation over the store that returns a value or throws. *)
Definition DB (A : Type) : Type := Store -> (Error + A) * Store.

Definition ret {A} (a : A) : DB A := fun st => (inr a, st).

Definition throw {A} (e : Error) : DB A := fun st => (inl e, st).

Definition bind {A B} (m : DB A) (k : A -> DB B) : DB B :=
  fun st =>
    match m st with
    | (inl e, st') => (inl e, st')
    | (inr a, st') => k a st'
    end.

Definition get_store : DB Store := fun st => (inr st, st).

Definition put_store (st : Store) : DB unit := fun _ => (inr tt, st).

Notation "'do' x <- m ; k" := (bind m (fun x => k))
  (at level 10, x name, m at level 100, k at level 200, only parsing).

(** A handler ends with [inr r] when it sent the response [r] and with
    [inl e] when it called [next(e)]. *)
Definition Handler : Type := Request -> DB Response.

(** [response.json(b)] answers with the default status, 200;
    [response.status(n).json(b)] with [n]. *)
Definition respond (n : nat) (b : Json) : DB Response := ret (mkResponse n b).

Definition message (m : string) : Json := JObject [("message", JString m)].

(** JavaScript's truthiness of a value that is a string or [undefined]. *)
Definition truthy (v : option string) : bool :=
  match v with
  | None => false
  | Some s => negb (String.eqb s "")
  end.

(** A template literal's rendering of a value that is a string or
    [undefined]. *)
Definition js_string (v : option string) : string :=
  match v with
  | None => "undefined"
  | Some s => s
  end.

(** ** Routes *)

(** Express matches the literal parts of a path without regard to case
    (its [case sensitive routing] setting is off unless enabled, and
    [server.js] does not enable it): two segments are the same when their
    lower-case forms are. *)
Definition lower_ascii (c : ascii) : ascii :=
  let n := nat_of_ascii c in
  if Nat.leb 65 n && Nat.leb n 90 then ascii_of_nat (n + 32) else c.

Fixpoint lowercase (s : string) : string :=
  match s with
  | EmptyString => EmptyString
  | String c s' => String (lower_ascii c) (lowercase s')
  end.

Definition same_segment (a b : string) : bool :=
  String.eqb (lowercase a) (lowercase b).

(** Whether a path lies under a prefix, as [app.use(prefix, ...)] tests
    it. *)
Definition under (prefix : string) (p : list string) : bool :=
  match p with
  | x :: _ => same_segment prefix x
  | [] => false
  end.

(** A segment of a route's path: a literal, or a parameter [:name]. *)
Inductive Segment :=
| Lit (s : string)
| Param (name : string).

(** A route's path: a sequence of segments, or the pattern ["*"]. *)
Inductive Pattern :=
| Segments (l : list Segment)
| Star.

Record Route := mkRoute {
  route_method : Method;
  route_path : Pattern;
  route_handler : Handler
}.

(** What stands in the application's stack before the error responder: a
    route of the application itself, or a router mounted under a prefix. *)
Inductive Layer :=
| Direct (r : Route)
| Mount (prefix : string) (router : list Route).

Definition Method_eqb (a b : Method) : bool :=
  match a, b with
  | GET, GET | POST, POST | PATCH, PATCH | DELETE, DELETE => true
  | _, _ => false
  end.

(** The parameters a path binds when it matches a sequence of segments. *)
Fixpoint match_segments (l : list Segment) (p : list string) : option (gmap string string) :=
  match l, p with
  | [], [] => Some ∅
  | Lit s :: l', x :: p' => if same_segment s x then match_segments l' p' else None
  | Param n :: l', x :: p' => (fun ps => <[n := x]> ps) <$> match_segments l' p'
  | _, _ => None
  end.

Definition match_pattern (pat : Pattern) (p : list string) : option (gmap string string) :=
  match pat with
  | Segments l => match_segments l p
  | Star => Some ∅
  end.

Definition match_route (r : Route) (m : Method) (p : list string) : option (gmap string string) :=
  if Method_eqb (route_method r) m then match_pattern (route_path r) p else None.

(** The first route of a router that matches, with the parameters bound. *)
Fixpoint find_route (rs : list Route) (m : Method) (p : list string)
    : option (Route * gmap string string) :=
  match rs with
  | [] => None
  | r :: rs' =>
      match match_route r m p with
      | Some ps => Some (r, ps)
      | None => find_route rs' m p
      end
  end.

(** The same through the layers of an application: a mounted router sees
    the path below its prefix. *)
Fixpoint find_layer (ls : list Layer) (m : Method) (p : list string)
    : option (Route * gmap string string) :=
  match ls with
  | [] => None
  | Direct r :: ls' =>
      match match_route r m p with
      | Some ps => Some (r, ps)
      | None => find_layer ls' m p
      end
  | Mount prefix router :: ls' =>
      match p with
      | x :: p' =>
          if same_segment prefix x then
            match find_route router m p' with
            | Some found => Some found
            | None => find_layer ls' m p
            end
          else find_layer ls' m p
      | [] => find_layer ls' m p
      end
  end.

(** Assignments to a property of a request or of a user document. *)
Definition set_params (ps : gmap string string) (r : Request) : Request :=
  mkRequest (method r) (path r) (token r) (body r) ps (userId r).

Definition set_userId (id : option string) (r : Request) : Request :=
  mkRequest (method r) (path r) (token r) (body r) (params r) id.

Definition set_email (v : option string) (u : User.t) : User.t :=
  User.mk (User._id u) v (User.password u) (User.name u) (User.birthday u) (User.admin u).

Definition set_password (v : option string) (u : User.t) : User.t :=
  User.mk (User._id u) (User.email u) v (User.name u) (User.birthday u) (User.admin u).

Definition set_name (v : option string) (u : User.t) : User.t :=
  User.mk (User._id u) (User.email u) (User.password u) v (User.birthday u) (User.admin u).

Definition set_birthday (v : option string) (u : User.t) : User.t :=
  User.mk (User._id u) (User.email u) (User.password u) (User.name u) v (User.admin u).

Definition set_users (l : list User.t) (st : Store) : Store :=
  mkStore l (items st) (categories st).

Definition set_categories (l : list Category.t) (st : Store) : Store :=
  mkStore (users st) (items st) l.

(** A collection of users with the document of an identifier replaced. *)
Definition replace_user (d : User.t) (l : list User.t) : list User.t :=
  List.map (fun x => if String.eqb (User._id x) (User._id d) then d else x) l.

(** [error.status || 500]: a status that is absent or zero gives way to the
    default. *)
Definition status_or (s : option nat) (default : nat) : nat :=
  match s with
  | Some (S n) => S n
  | Some 0 => default
  | None => default
  end.

(** The outcome of a request: a layer of the application answered it
    with a status and the JSON it handed to [response.json]; or a layer
    answered it with a status with which the JSON is not what the client
    receives; or none did and Express's own final handler answers (a page in
    HTML, not produced by the code of [server.js]: 404 when no layer
    matched, 500 when the last layer threw). *)
Inductive Outcome :=
| Answered (r : Response)
| AnsweredHead (status : nat)
| FinalHandler.

(** The status codes that node accepts when a response is written: with
    another one [response.status(n).json(...)] throws. *)
Definition valid_status (n : nat) : bool :=
  Nat.leb 100 n && Nat.leb n 999.

(** The status codes of a response without a body: node sends none with
    an informational status, with 204 and with 304, and Express empties the
    body of a 205. *)
Definition bodiless_status (n : nat) : bool :=
  Nat.ltb n 200 || Nat.eqb n 204 || Nat.eqb n 205 || Nat.eqb n 304.

Section Backend.

Set Default Proof Using "Type".

(** *** Outside [src/] *)

(** mongoose: the cast of a string to an ObjectId, which gives the
    identifier in the form [toString()] shows it or fails, and the message
    of the error that is thrown for each failure. *)
Variable toObjectId : string -> option ObjectId.
Variable mongooseMessage : MongooseFailure -> string.

(** The error object mongoose throws for a failure: its error classes
    (CastError, ValidationError, DocumentNotFoundError, the driver's error
    for a duplicate key) carry a message and no [status] property. *)
Definition mongooseError (f : MongooseFailure) : Error :=
  mkError None (mongooseMessage f).

(** The identifier the driver gives to the document that [new UserModel]
    builds while the request is served. *)
Variable newObjectId : ObjectId.

(** bcryptjs: [hash(s, rounds)] of a string, and [compare(s, hash)],
    which throws on arguments that are not strings. *)
Variable bcrypt_hash : string -> nat -> string.
Variable bcrypt_compare : option string -> option string -> Error + bool.

(** [utils/auth.js]. *)
Variable createJwt : JwtSubject -> string.
Variable decodedJwt : string -> Json.

(** The token primitive's [verify]: the identifier a valid token embeds. *)
Variable verify : string -> option ObjectId.

(** The cost [UserModel] hashes a new password with. *)
Variable saltRounds : nat.

(** [controllers/OrderRouter.js] and [controllers/FavouriteRouter.js]. *)
Variable orderRouter : list Route.
Variable favouriteRouter : list Route.

(** *** Queries *)

(** The cast of a query's value to the ObjectId of a path. *)
Definition castObjectId (model path value : string) : DB ObjectId :=
  match toObjectId value with
  | Some o => ret o
  | None => throw (mongooseError (CastFailed model path value))
  end.

(** An item is accepted for persistence when its values cast to the types
    of [itemSchema] and the schema validates it. *)
Definition item_accepted (d : Item.t) : bool :=
  Schema.casts toObjectId itemSchema item_get d && Schema.validate itemSchema item_get d.

(** [ItemModel.find({})]. *)
Definition ItemModel_find : DB (list Item.t) :=
  do st <- get_store; ret (items st).

(** [ItemModel.find({ category })]: the items whose [category] is the
    given one, in the collection's order; an [undefined] value selects the
    items that have none. *)
Definition ItemModel_find_category (category : option string) : DB (list Item.t) :=
  do c <- match category with
          | Some v => do o <- castObjectId "Item" "category" v; ret (Some o)
          | None => ret None
          end;
  do st <- get_store;
  ret (List.filter (fun d => bool_decide (Item.category d = c)) (items st)).

(** [ItemModel.findById(id)]: the item of that identifier, or [null]. *)
Definition ItemModel_findById (id : option string) : DB (option Item.t) :=
  match id with
  | Some v =>
      do o <- castObjectId "Item" "_id" v;
      do st <- get_store;
      ret (List.find (fun d => String.eqb (Item._id d) o) (items st))
  | None => ret None
  end.

(** [CategoryModel.find({})]. *)
Definition CategoryModel_find : DB (list Category.t) :=
  do st <- get_store; ret (categories st).

(** [UserModel.find({})]. *)
Definition UserModel_find : DB (list User.t) :=
  do st <- get_store; ret (users st).

(** [UserModel.findOne({ email })]: the first user whose [email] is the
    given one, or [null]. *)
Definition UserModel_findOne_email (email : option string) : DB (option User.t) :=
  do st <- get_store;
  ret (List.find (fun u => bool_decide (User.email u = email)) (users st)).

(** [UserModel.findById(id)]. *)
Definition UserModel_findById (id : option string) : DB (option User.t) :=
  match id with
  | Some v =>
      do o <- castObjectId "User" "_id" v;
      do st <- get_store;
      ret (List.find (fun u => String.eqb (User._id u) o) (users st))
  | None => ret None
  end.

(** [UserModel.findByIdAndDelete(id)]: removes the user of that
    identifier and returns it, or [null]. The store keeps [_id] unique in a
    collection, so what is left is what has another identifier. *)
Definition UserModel_findByIdAndDelete (id : option string) : DB (option User.t) :=
  do found <- UserModel_findById id;
  match found with
  | Some u =>
      do st <- get_store;
      do _ <- put_store
        (set_users (List.filter (fun x => negb (String.eqb (User._id x) (User._id u))) (users st)) st);
      ret (Some u)
  | None => ret None
  end.

(** *** [UserModel] *)

(** Modelled from the spec: the schema of [UserModel]
    ([src/models/UserModel.js] is not among the sources). "User: identity
    record - unique email (string), hashed password (opaque string),
    display name, optional birthday, boolean admin flag": the three fields
    that are not optional are required, and [email] is unique. *)
Definition userSchema : list Schema.Path :=
  [ Schema.mk "email" Schema.String_ true true None;
    Schema.mk "password" Schema.String_ true false None;
    Schema.mk "name" Schema.String_ true false None;
    Schema.mk "birthday" Schema.String_ false false None;
    Schema.mk "admin" Schema.Boolean_ false false None ].

Definition user_get (u : User.t) (p : string) : option Schema.Value :=
  if String.eqb p "email" then Schema.VString <$> User.email u
  else if String.eqb p "password" then Schema.VString <$> User.password u
  else if String.eqb p "name" then Schema.VString <$> User.name u
  else if String.eqb p "birthday" then Schema.VString <$> User.birthday u
  else if String.eqb p "admin" then Some (Schema.VBoolean (User.admin u))
  else None.

(** Modelled from the spec: the hashing of [UserModel]. The signup route
    hands the submitted password to the document as it is, so the hashing
    that the spec gives to signup ("hashes password, persists") is the
    model's, on the save of a new document. *)
Definition UserModel_preSave (isNew : bool) (u : User.t) : User.t :=
  if isNew then
    match User.password u with
    | Some p => set_password (Some (bcrypt_hash p saltRounds)) u
    | None => u
    end
  else u.

(** Modelled from the spec: [document.save()] on a [UserModel] document.
    The document is validated, hashed when it is new, and written: a new
    one is inserted at the end of the collection, one that a query
    returned replaces the stored one of its identifier. The unique index
    on [email] (and on [_id]) refuses a value that another document
    holds. The document as written is returned: it is the object the
    caller goes on with. *)
Definition UserModel_save (isNew : bool) (u : User.t) : DB User.t :=
  if negb (Schema.validate userSchema user_get u) then
    throw (mongooseError (ValidationFailed "User"))
  else
    let u' := UserModel_preSave isNew u in
    do st <- get_store;
    let others := List.filter (fun x => negb (String.eqb (User._id x) (User._id u'))) (users st) in
    if existsb (fun x => bool_decide (User.email x = User.email u')) others then
      throw (mongooseError (DuplicateKey "User" "email"))
    else if isNew then
      if existsb (fun x => String.eqb (User._id x) (User._id u')) (users st) then
        throw (mongooseError (DuplicateKey "User" "_id"))
      else
        do _ <- put_store (set_users (users st ++ [u']) st);
        ret u'
    else
      if existsb (fun x => String.eqb (User._id x) (User._id u')) (users st) then
        do _ <- put_store (set_users (replace_user u' (users st)) st);
        ret u'
      else throw (mongooseError (DocumentNotFound "User")).

(** *** [controllers/MenuRouter.js] *)

(** [router.get("/")]: all items. *)
Definition menu_get : Handler := fun request =>
  do items <- ItemModel_find;
  respond 200 (JObject [("result", JArray (List.map JItem items))]).

(** [router.get("/categories")]: all categories. *)
Definition menu_get_categories : Handler := fun request =>
  do categories <- CategoryModel_find;
  respond 200 (JObject [("result", JArray (List.map JCategory categories))]).

(** [router.get("/:id")]: a single item by ID. *)
Definition menu_get_id : Handler := fun request =>
  let itemId := params request !! "id" in
  do item <- ItemModel_findById itemId;
  match item with
  | None => respond 404 (message "Item not found")
  | Some item => respond 200 (JObject [("result", JItem item)])
  end.

(** [router.get("/categories/:categoryId")]: the items of a category. *)
Definition menu_get_categories_categoryId : Handler := fun request =>
  let categoryId := params request !! "categoryId" in
  do items <- ItemModel_find_category categoryId;
  if Nat.eqb (length items) 0 then
    respond 404 (message "There are currently no items in this category.")
  else
    respond 200 (JObject [("result", JArray (List.map JItem items))]).

Definition menuRouter : list Route :=
  [ mkRoute GET (Segments []) menu_get;
    mkRoute GET (Segments [Lit "categories"]) menu_get_categories;
    mkRoute GET (Segments [Param "id"]) menu_get_id;
    mkRoute GET (Segments [Lit "categories"; Param "categoryId"]) menu_get_categories_categoryId ].

(** *** [utils/middleware.js] *)

(** Modelled from the spec: the authentication middleware
    ([src/utils/middleware.js] is not among the sources). "NoHeader ->
    (fail AuthenticationRequired); HeaderPresent -> verify() -> Valid
    (attach identity, continue) | Invalid (fail InvalidToken)", with status
    401 and the messages "Authentication token is required" and
    "Invalid token". *)
Definition verifyJwt (next : Handler) : Handler := fun request =>
  match token request with
  | None => respond 401 (message "Authentication token is required")
  | Some t =>
      match verify t with
      | None => respond 401 (message "Invalid token")
      | Some id => next (set_userId (Some id) request)
      end
  end.

(** Modelled from the spec: the admin guard of the same file. It "runs
    after identity attachment and checks a boolean admin flag on the
    loaded user record (re-fetched from the User Store, not trusted from
    the token alone)"; it "fails with AccessDenied if false", with status
    403 and the message "Access denied! must be an admin.". An identity
    that resolves to no user has no flag that is true. *)
Definition requireAdmin (next : Handler) : Handler := fun request =>
  do user <- UserModel_findById (userId request);
  match user with
  | Some u =>
      if User.admin u then next request
      else respond 403 (message "Access denied! must be an admin.")
  | None => respond 403 (message "Access denied! must be an admin.")
  end.

(** *** [controllers/UserRouter.js] *)

(** [router.get("/")]: all users. *)
Definition users_get : Handler := fun request =>
  do result <- UserModel_find;
  respond 200
    (JObject [("message", JString "User router operation");
              ("result", JArray (List.map JUser result))]).

(** [router.post("/signup")]. *)
Definition users_signup : Handler := fun request =>
  let email := body request !! "email" in
  let password := body request !! "password" in
  let name := body request !! "name" in
  let birthday := body request !! "birthday" in
  do existingUser <- UserModel_findOne_email email;
  match existingUser with
  | Some _ => respond 400 (message "A profile with this email already exists.")
  | None =>
      let newUser := User.mk newObjectId email password name birthday false in
      do newUser <- UserModel_save true newUser;
      let token := createJwt (SubjectId (User._id newUser)) in
      let decodedJwtData := decodedJwt token in
      respond 201
        (JObject [("message",
                   JString ("Thank you for signing up to Three Beans " +:+ js_string name +:+ "!"));
                  ("newUser", JUser newUser);
                  ("token", JString token);
                  ("decodedJwt", decodedJwtData)])
  end.

(** [router.post("/login")]. *)
Definition users_login : Handler := fun request =>
  let email := body request !! "email" in
  do user <- UserModel_findOne_email email;
  match user with
  | None =>
      respond 404
        (JObject [("status", JString "failed"); ("data", JArray []);
                  ("message", JString "Email not found.")])
  | Some user =>
      match bcrypt_compare (body request !! "password") (User.password user) with
      | inl error => throw error
      | inr false =>
          respond 401
            (JObject [("status", JString "failed"); ("data", JArray []);
                      ("message",
                       JString "Your password is incorrect, please double check and try again.")])
      | inr true =>
          let token := createJwt (SubjectUser user) in
          respond 200
            (JObject [("message", JString (js_string (User.name user) +:+ " has logged in successfully!"));
                      ("token", JString token)])
      end
  end.

(** The end of the update handler, from [if (password)] on: what runs
    when the email check did not return. *)
Definition users_update_save (password birthday : option string) (user : User.t) : DB Response :=
  let user :=
    match password with
    | Some p => if truthy password then set_password (Some (bcrypt_hash p 10)) user else user
    | None => user
    end in
  let user := if truthy birthday then set_birthday birthday user else user in
  do user <- UserModel_save false user;
  let token := createJwt (SubjectUser user) in
  respond 200
    (JObject [("message", JString "Profile updated successfully!");
              ("token", JString token)]).

(** The handler of [router.patch("/update", verifyJwt, ...)]. *)
Definition users_update_handler : Handler := fun request =>
  let name := body request !! "name" in
  let email := body request !! "email" in
  let password := body request !! "password" in
  let birthday := body request !! "birthday" in
  do user <- UserModel_findById (userId request);
  match user with
  | None => respond 404 (message "User not found.")
  | Some user =>
      let user := if truthy name then set_name name user else user in
      if truthy email then
        do existingUser <- UserModel_findOne_email email;
        match existingUser with
        | Some existingUser =>
            if negb (bool_decide (Some (User._id existingUser) = userId request)) then
              respond 400 (message "This email is already in use.")
            else users_update_save password birthday (set_email email user)
        | None => users_update_save password birthday (set_email email user)
        end
      else users_update_save password birthday user
  end.

Definition users_update : Handler := verifyJwt users_update_handler.

(** The handler of [router.delete("/delete", verifyJwt, ...)]. *)
Definition users_delete_handler : Handler := fun request =>
  do user <- UserModel_findById (userId request);
  match user with
  | None => respond 404 (message "User not found.")
  | Some user =>
      do _ <- UserModel_findByIdAndDelete (userId request);
      respond 200
        (message ("User " +:+ js_string (User.name user) +:+ " deleted successfully."))
  end.

Definition users_delete : Handler := verifyJwt users_delete_handler.

Definition userRouter : list Route :=
  [ mkRoute GET (Segments []) users_get;
    mkRoute POST (Segments [Lit "signup"]) users_signup;
    mkRoute POST (Segments [Lit "login"]) users_login;
    mkRoute PATCH (Segments [Lit "update"]) users_update;
    mkRoute DELETE (Segments [Lit "delete"]) users_delete ].

(** *** The category deletion route *)

(** [CategoryModel.findById(id)] and [CategoryModel.findByIdAndDelete(id)],
    as the queries of users above. *)
Definition CategoryModel_findById (id : option string) : DB (option Category.t) :=
  match id with
  | Some v =>
      do o <- castObjectId "Category" "_id" v;
      do st <- get_store;
      ret (List.find (fun c => String.eqb (Category._id c) o) (categories st))
  | None => ret None
  end.

Definition CategoryModel_findByIdAndDelete (id : option string) : DB (option Category.t) :=
  do found <- CategoryModel_findById id;
  match found with
  | Some c =>
      do st <- get_store;
      do _ <- put_store
        (set_categories
           (List.filter (fun x => negb (String.eqb (Category._id x) (Category._id c))) (categories st))
           st);
      ret (Some c)
  | None => ret None
  end.

(** Modelled from the spec: [deleteCategory(id)] (the sources' MenuRouter.js
    has no route for it; [tests/MenuRouter.test.js] calls it as
    DELETE /menu/delete/category/:id). It "fails NotFound if absent; fails
    CategoryInUse (Cannot delete this category as there are still items
    associated with it.) if any Item references it; otherwise deletes and
    reports the deleted category's name", with the statuses 404, 400 and
    200 and the messages of the tests. *)
Definition menu_delete_category_handler : Handler := fun request =>
  let id := params request !! "id" in
  do category <- CategoryModel_findById id;
  match category with
  | None => respond 404 (message "Category not found.")
  | Some category =>
      do items <- ItemModel_find_category id;
      if Nat.ltb 0 (length items) then
        respond 400
          (message "Cannot delete this category as there are still items associated with it.")
      else
        do _ <- CategoryModel_findByIdAndDelete id;
        respond 200
          (message ("Category " +:+ js_string (Category.name category) +:+ " deleted successfully."))
  end.

(** Modelled from the spec: the route of [deleteCategory], which "requires
    admin": the handler behind the two guards. *)
Definition menu_delete_category : Handler :=
  verifyJwt (requireAdmin menu_delete_category_handler).

(** *** [server.js] *)

(** [app.get("/")]. *)
Definition welcome : Handler := fun request =>
  respond 200 (message "Welcome to Three Beans Cafe!").

(** [app.get("*")]. *)
Definition pageNotFound : Handler := fun request =>
  respond 404 (message "404 Page not found").

(** The error-handling middleware, [app.use((error, request, response,
    next) => ...)]. It is the last layer: when the status it is to answer
    with is none that node accepts, writing the response throws and the
    answer is that of Express's final handler; when it is the status of a
    response without a body, the status is written and the JSON is not
    sent. *)
Definition errorResponder (error : Error) : Outcome :=
  let code := status_or (error_status error) 500 in
  if valid_status code then
    if bodiless_status code then AnsweredHead code
    else
      Answered
        (mkResponse code
           (JObject [("message", JString "Error Occured!");
                     ("error", JString (error_message error))]))
  else FinalHandler.

(** The routes registered before the catch-all, in the order of
    [server.js]. *)
Definition routes : list Layer :=
  [ Direct (mkRoute GET (Segments []) welcome);
    Mount "users" userRouter;
    Mount "menu" menuRouter;
    Mount "orders" orderRouter;
    Mount "favourites" favouriteRouter ].

(** The stack of the application: the routes, then the catch-all. *)
Definition layers : list Layer :=
  routes ++ [ Direct (mkRoute GET Star pageNotFound) ].

(** The application on a request: the first route that matches runs; an
    error it hands to [next] is answered by the error responder. *)
Definition app (request : Request) : Store -> Store * Outcome := fun st =>
  match find_layer layers (method request) (path request) with
  | Some (r, ps) =>
      match route_handler r (set_params ps request) st with
      | (inr response, st') => (st', Answered response)
      | (inl error, st') => (st', errorResponder error)
      end
  | None => (st, FinalHandler)
  end.

(** *** Sample data *)

(** One behaviour of what stands outside [src/], and the store that
    [tests/MenuRouter.test.js] seeds, to run the model on. *)

Definition is_hex (c : ascii) : bool :=
  let n := nat_of_ascii c in
  (Nat.leb 48 n && Nat.leb n 57) || (Nat.leb 97 n && Nat.leb n 102)
  || (Nat.leb 65 n && Nat.leb n 70).

Definition sample_isObjectId (s : string) : bool :=
  Nat.eqb (String.length s) 24 && forallb is_hex (list_ascii_of_string s).

Definition sample_toObjectId (s : string) : option ObjectId :=
  if sample_isObjectId s then Some (lowercase s) else None.

Definition sample_mongooseMessage (f : MongooseFailure) : string :=
  match f with
  | CastFailed model path value => "Cast to ObjectId failed for value " +:+ value
  | ValidationFailed model => model +:+ " validation failed"
  | DuplicateKey model path => "E11000 duplicate key error: " +:+ path
  | DocumentNotFound model => "No document found for model " +:+ model
  end.

Definition sample_hash (s : string) (rounds : nat) : string := "$2a$10$" +:+ s.

Definition sample_compare (s hash : option string) : Error + bool :=
  match s, hash with
  | Some s, Some h => inr (String.eqb (sample_hash s 10) h)
  | _, _ => inl (mkError None "Illegal arguments")
  end.

Definition sample_createJwt (subject : JwtSubject) : string :=
  match subject with
  | SubjectId id => "jwt." +:+ id
  | SubjectUser u => "jwt." +:+ User._id u
  end.

Definition sample_verify (t : string) : option ObjectId :=
  if String.prefix "jwt." t then Some (String.substring 4 (String.length t - 4) t)
  else None.

Definition sample_decodedJwt (t : string) : Json :=
  match sample_verify t with
  | Some id => JObject [("id", JString id)]
  | None => JObject []
  end.

Definition adminUser : User.t :=
  User.mk "64b000000000000000000001" (Some "admin@test.com")
    (Some (sample_hash "password" 10)) (Some "Admin User") None true.

Definition testUser : User.t :=
  User.mk "64b000000000000000000002" (Some "user@test.com")
    (Some (sample_hash "password" 10)) (Some "Test User") None false.

Definition testCategory : Category.t :=
  Category.mk "64b00000000000000000000a" (Some "Test Category").

Definition testCategory2 : Category.t :=
  Category.mk "64b00000000000000000000b" (Some "Test Category 2").

Definition testItem : Item.t :=
  Item.mk "64b0000000000000000000f1" (Some "Test Item") (Some "64b00000000000000000000a")
    (Some (599 # 100)) None None None.

Definition testStore : Store :=
  mkStore [adminUser; testUser] [testItem] [testCategory; testCategory2].

(** A request with nothing but a method and a path. *)
Definition bare (m : Method) (p : list string) : Request :=
  mkRequest m p None ∅ ∅ None.

(** An item whose price is below zero and that lacks nothing. *)
Definition negativeItem : Item.t :=
  Item.mk "64b0000000000000000000f2" (Some "Refund") (Some "64b00000000000000000000a")
    (Some (- (1 # 1))%Q) (Some (1 # 1)) None None.

(** *** Notions of the specification *)

(** The items that reference a category. *)
Definition referencing (categoryId : ObjectId) (st : Store) : list Item.t :=
  filter (fun d => Item.category d = Some categoryId) (items st).

(** The password a returned record carries. *)
Definition returned_password (j : Json) : option string :=
  match j with
  | JUser u => User.password u
  | _ => None
  end.

(** An item with its price replaced. *)
Definition with_price (p : option Q) (d : Item.t) : Item.t :=
  Item.mk (Item._id d) (Item.name d) (Item.category d) p (Item.quantity d)
    (Item.description d) (Item.image d).

(** A request with its body replaced. *)
Definition set_body (b : gmap string string) (r : Request) : Request :=
  mkRequest (method r) (path r) (token r) b (params r) (userId r).

(** The document the update handler hands to [save]: the stored one with
    the assignments of the handler, in its order. *)
Definition users_update_doc (b : gmap string string) (user : User.t) : User.t :=
  let user := if truthy (b !! "name") then set_name (b !! "name") user else user in
  let user := if truthy (b !! "email") then set_email (b !! "email") user else user in
  let user :=
    match b !! "password" with
    | Some p =>
        if truthy (b !! "password") then set_password (Some (bcrypt_hash p 10)) user else user
    | None => user
    end in
  if truthy (b !! "birthday") then set_birthday (b !! "birthday") user else user.

(** ** Properties *)

Local Arguments String.eqb : simpl nomatch.

(** *** Routing *)

Lemma find_layer_menu_id (id : string) :
  same_segment "categories" id = false ->
  find_layer layers GET ["menu"; id]
  = Some (mkRoute GET (Segments [Param "id"]) menu_get_id, <["id" := id]> ∅).
Proof.
  intros Hne. unfold layers, routes, menuRouter, userRouter.
  cbn [List.app find_layer find_route match_route match_pattern match_segments
       route_method route_path Method_eqb].
  replace (same_segment "users" "menu") with false by reflexivity.
  replace (same_segment "menu" "menu") with true by reflexivity.
  rewrite Hne. reflexivity.
Qed.

Lemma find_layer_menu_category (categoryId : string) :
  find_layer layers GET ["menu"; "categories"; categoryId]
  = Some (mkRoute GET (Segments [Lit "categories"; Param "categoryId"])
            menu_get_categories_categoryId,
          <["categoryId" := categoryId]> ∅).
Proof. reflexivity. Qed.

Lemma find_layer_users :
  find_layer layers GET ["users"] = Some (mkRoute GET (Segments []) users_get, ∅).
Proof. reflexivity. Qed.

Lemma find_layer_signup :
  find_layer layers POST ["users"; "signup"]
  = Some (mkRoute POST (Segments [Lit "signup"]) users_signup, ∅).
Proof. reflexivity. Qed.

(** *** The monad *)

Lemma bind_run {A B} (m : DB A) (k : A -> DB B) (st st' : Store) (a : A) :
  m st = (inr a, st') -> bind m k st = k a st'.
Proof. intros Hm. unfold bind. rewrite Hm. reflexivity. Qed.

Lemma bind_throw {A B} (m : DB A) (k : A -> DB B) (st st' : Store) (e : Error) :
  m st = (inl e, st') -> bind m k st = (inl e, st').
Proof. intros Hm. unfold bind. rewrite Hm. reflexivity. Qed.

(** *** Lists and queries *)

Lemma filter_bool_decide {A} (P : A -> Prop) `{forall x, Decision (P x)} (l : list A) :
  List.filter (fun x => bool_decide (P x)) l = filter P l.
Proof.
  induction l as [|x l IH]; [reflexivity|].
  rewrite filter_cons. cbn [List.filter]. rewrite IH. destruct (decide (P x)) as [Hx|Hx].
  - rewrite bool_decide_eq_true_2 by exact Hx. reflexivity.
  - rewrite bool_decide_eq_false_2 by exact Hx. reflexivity.
Qed.

Lemma ItemModel_find_category_ok (value : string) (categoryId : ObjectId) (st : Store) :
  toObjectId value = Some categoryId ->
  ItemModel_find_category (Some value) st = (inr (referencing categoryId st), st).
Proof.
  intros Hid. unfold ItemModel_find_category, castObjectId, bind, get_store, ret.
  rewrite Hid. cbn. unfold referencing. rewrite filter_bool_decide. reflexivity.
Qed.

Lemma errorResponder_no_status (error : Error) :
  error_status error = None ->
  errorResponder error
  = Answered (mkResponse 500
      (JObject [("message", JString "Error Occured!");
                ("error", JString (error_message error))])).
Proof.
  intros Hs. unfold errorResponder. rewrite Hs. reflexivity.
Qed.

(** *** The menu routes *)

(** C3, as the route has it: for every categoryId that casts to an
    ObjectId, GET /menu/categories/:categoryId answers 404 with the message
    "There are currently no items in this category." exactly when no item
    references that identifier, whatever the categories collection holds
    (so also when no category has that id), and otherwise answers 200 with
    exactly the items whose category is that identifier; for a categoryId
    that does not cast, the query throws and the answer is the error
    responder's 500 with the message of mongoose's error, not this 404. *)
Theorem C3_items_by_category (value : string) (request : Request) (st : Store) :
  method request = GET ->
  path request = ["menu"; "categories"; value] ->
  let none := mkResponse 404 (message "There are currently no items in this category.") in
  (forall categoryId,
     toObjectId value = Some categoryId ->
     let found := referencing categoryId st in
     (app request st = (st, Answered none) <-> length found = 0)
     /\ (1 <= length found ->
         app request st
         = (st, Answered (mkResponse 200 (JObject [("result", JArray (List.map JItem found))]))))
     /\ (forall d, In d found <-> In d (items st) /\ Item.category d = Some categoryId)
     /\ (length found = 0 ->
         forall cats,
           app request (set_categories cats st) = (set_categories cats st, Answered none)))
  /\ (toObjectId value = None ->
      app request st
      = (st, Answered (mkResponse 500
               (JObject [("message", JString "Error Occured!");
                         ("error",
                          JString (mongooseMessage (CastFailed "Item" "category" value)))])))).
Proof.
  intros Hm Hp none.
  assert (Hroute : forall s,
    app request s
    = match menu_get_categories_categoryId
              (set_params (<["categoryId" := value]> ∅) request) s with
      | (inr response, s') => (s', Answered response)
      | (inl error, s') => (s', errorResponder error)
      end).
  { intros s. unfold app. rewrite Hm, Hp, find_layer_menu_category. reflexivity. }
  split.
  - intros categoryId Hid found.
    assert (Happ : forall s, items s = items st ->
      app request s
      = (s, Answered (if Nat.eqb (length found) 0 then none
                      else mkResponse 200 (JObject [("result", JArray (List.map JItem found))])))).
    { intros s Hs. rewrite Hroute. unfold menu_get_categories_categoryId.
      cbn [params set_params]. rewrite lookup_insert_eq.
      unfold bind at 1. rewrite (ItemModel_find_category_ok _ _ _ Hid).
      unfold referencing. rewrite Hs. fold (referencing categoryId st). fold found.
      destruct (Nat.eqb (length found) 0); reflexivity. }
    split; [split|split; [|split]].
    + intros Heq. rewrite (Happ st eq_refl) in Heq.
      destruct (Nat.eqb (length found) 0) eqn:E.
      * apply Nat.eqb_eq. exact E.
      * discriminate Heq.
    + intros Hlen. rewrite (Happ st eq_refl), Hlen. reflexivity.
    + intros Hlen. rewrite (Happ st eq_refl).
      destruct (Nat.eqb (length found) 0) eqn:E; [|reflexivity].
      apply Nat.eqb_eq in E. lia.
    + intros d. unfold found, referencing.
      rewrite <- !list_elem_of_In, list_elem_of_filter.
      split; [intros [Hc Hd]; split; assumption|intros [Hd Hc]; split; assumption].
    + intros Hlen cats. rewrite (Happ (set_categories cats st) eq_refl), Hlen. reflexivity.
  - intros Hcast. rewrite Hroute. unfold menu_get_categories_categoryId.
    cbn [params set_params]. rewrite lookup_insert_eq.
    unfold ItemModel_find_category, castObjectId, bind, throw. rewrite Hcast. reflexivity.
Qed.

Lemma find_none_iff {A} (f : A -> bool) (l : list A) :
  List.find f l = None <-> forall x, In x l -> f x = false.
Proof.
  split.
  - intros Hf x Hx. exact (find_none f l Hf x Hx).
  - induction l as [|x l IH]; [reflexivity|].
    intros Hall. cbn. rewrite (Hall x (or_introl eq_refl)).
    apply IH. intros y Hy. apply Hall. right. exact Hy.
Qed.

Lemma find_some_exists {A} (f : A -> bool) (l : list A) :
  (exists x, In x l /\ f x = true) -> exists x, List.find f l = Some x /\ In x l /\ f x = true.
Proof.
  intros [x [Hx Hfx]]. destruct (List.find f l) as [y|] eqn:E.
  - exists y. split; [reflexivity|]. exact (find_some f l E).
  - rewrite (find_none f l E x Hx) in Hfx. discriminate Hfx.
Qed.

(** C6: GET /menu/:id for an id that no item has answers 404, but with
    the message "Item not found", which is not the "Item not found." of the
    claim and of the tests; when an item has the id, the answer is 200 with
    that item in the result field. The parameter is any string that casts
    to the id and that the route of the categories does not take. *)
Theorem C6_item_by_id (value : string) (id : ObjectId) (request : Request) (st : Store) :
  toObjectId value = Some id ->
  same_segment "categories" value = false ->
  method request = GET ->
  path request = ["menu"; value] ->
  ((forall d, In d (items st) -> Item._id d <> id) ->
   app request st = (st, Answered (mkResponse 404 (message "Item not found")))
   /\ app request st <> (st, Answered (mkResponse 404 (message "Item not found."))))
  /\ ((exists d, In d (items st) /\ Item._id d = id) ->
      exists d, In d (items st) /\ Item._id d = id
        /\ app request st = (st, Answered (mkResponse 200 (JObject [("result", JItem d)])))).
Proof.
  intros Hid Hroute Hm Hp.
  assert (Happ : app request st
    = (st, Answered match List.find (fun d => String.eqb (Item._id d) id) (items st) with
                    | None => mkResponse 404 (message "Item not found")
                    | Some d => mkResponse 200 (JObject [("result", JItem d)])
                    end)).
  { unfold app. rewrite Hm, Hp, (find_layer_menu_id _ Hroute).
    cbn [route_handler]. unfold menu_get_id. cbn [params set_params].
    rewrite lookup_insert_eq.
    unfold ItemModel_findById, castObjectId, bind, get_store, ret, respond.
    rewrite Hid.
    destruct (List.find (fun d => String.eqb (Item._id d) id) (items st)); reflexivity. }
  split.
  - intros Habsent.
    assert (Hnone : List.find (fun d => String.eqb (Item._id d) id) (items st) = None).
    { apply find_none_iff. intros d Hd. apply String.eqb_neq. exact (Habsent d Hd). }
    rewrite Happ, Hnone. split; [reflexivity|]. discriminate.
  - intros Hex.
    destruct (find_some_exists (fun d => String.eqb (Item._id d) id) (items st)) as [d [Hf [Hd Hd']]].
    { destruct Hex as [d [Hd Hd']]. exists d. split; [exact Hd|]. apply String.eqb_eq. exact Hd'. }
    exists d. split; [exact Hd|]. split; [apply String.eqb_eq; exact Hd'|].
    rewrite Happ, Hf. reflexivity.
Qed.

(** *** The user routes *)

(** C9: GET /users answers 200 with the message "User router operation"
    and every stored user document, whole: the records returned carry the
    stored password fields. *)
Theorem C9_get_users (t : option string) (b ps : gmap string string) (uid : option string)
    (st : Store) :
  exists result,
    app (mkRequest GET ["users"] t b ps uid) st
    = (st, Answered (mkResponse 200
             (JObject [("message", JString "User router operation");
                       ("result", JArray result)])))
    /\ result = List.map JUser (users st)
    /\ List.map returned_password result = List.map User.password (users st).
Proof.
  exists (List.map JUser (users st)). split; [|split].
  - unfold app. cbn [method path]. rewrite find_layer_users. reflexivity.
  - reflexivity.
  - rewrite List.map_map. reflexivity.
Qed.

(** *** The item schema *)

(** C8, as the schema has it: every item accepted for persistence has a
    price, and the price may be any number; the schema sets no lower
    bound, so whether an item is accepted does not depend on the value of
    its price. *)
Theorem C8_price_required_unbounded :
  (forall d, item_accepted d = true -> exists p, Item.price d = Some p)
  /\ (forall d p q,
        item_accepted (with_price (Some p) d) = item_accepted (with_price (Some q) d)).
Proof.
  split.
  - intros d Hd. unfold item_accepted, Schema.validate, itemSchema in Hd.
    cbn in Hd. destruct (Item.price d) as [p|].
    + exists p. reflexivity.
    + cbn in Hd. rewrite !andb_false_r in Hd. discriminate Hd.
  - intros d p q. reflexivity.
Qed.

(** *** The application *)

Lemma find_layer_app (ls ls' : list Layer) (m : Method) (p : list string) :
  find_layer (ls ++ ls') m p
  = match find_layer ls m p with
    | Some found => Some found
    | None => find_layer ls' m p
    end.
Proof.
  induction ls as [|l ls IH]; [reflexivity|].
  destruct l as [r|prefix router]; rewrite <- app_comm_cons; cbn [find_layer].
  - destruct (match_route r m p); [reflexivity|exact IH].
  - destruct p as [|x p']; [exact IH|].
    destruct (same_segment prefix x); [|exact IH].
    destruct (find_route router m p'); [reflexivity|exact IH].
Qed.

Lemma app_unmatched (request : Request) (st : Store) :
  find_layer routes (method request) (path request) = None ->
  app request st
  = (st, match method request with
         | GET => Answered (mkResponse 404 (message "404 Page not found"))
         | _ => FinalHandler
         end).
Proof.
  intros Hnone. unfold app, layers. rewrite find_layer_app, Hnone.
  destruct (method request); reflexivity.
Qed.

(** C7, as the application has it: a GET request whose path matches no
    registered route is answered 404 with the body [{message: "404 Page not
    found"}]; a request of another method that matches no route is answered
    by no layer of the application; and an error handed to [next] is
    answered with the body [{message: "Error Occured!", error:
    error.message}] and the status 500 when [error.status] is absent or
    zero, [error.status] when that is a status from 200 to 999 other than
    204, 205 and 304; with one of these three or an informational status
    the answer has the status and does not carry that body; with any other
    status the responder throws as it writes the response, and the answer
    is that of Express's final handler. *)
Theorem C7_unmatched_and_errors :
  (forall request st,
      method request = GET ->
      find_layer routes GET (path request) = None ->
      app request st = (st, Answered (mkResponse 404 (message "404 Page not found"))))
  /\ (forall request st,
        method request <> GET ->
        find_layer routes (method request) (path request) = None ->
        app request st = (st, FinalHandler))
  /\ (forall error,
        let body :=
          JObject [("message", JString "Error Occured!");
                   ("error", JString (error_message error))] in
        (error_status error = None \/ error_status error = Some 0 ->
         errorResponder error = Answered (mkResponse 500 body))
        /\ (forall s, error_status error = Some s -> 200 <= s -> s <= 999 ->
               s <> 204 -> s <> 205 -> s <> 304 ->
               errorResponder error = Answered (mkResponse s body))
        /\ (forall s, error_status error = Some s ->
               (100 <= s /\ s < 200) \/ s = 204 \/ s = 205 \/ s = 304 ->
               errorResponder error = AnsweredHead s)
        /\ (forall s, error_status error = Some s -> (0 < s /\ s < 100) \/ 999 < s ->
               errorResponder error = FinalHandler))
  /\ (forall request st r ps error st',
        find_layer layers (method request) (path request) = Some (r, ps) ->
        route_handler r (set_params ps request) st = (inl error, st') ->
        app request st = (st', errorResponder error)).
Proof.
  split; [|split; [|split]].
  - intros request st Hm Hnone. rewrite <- Hm in Hnone.
    rewrite (app_unmatched _ _ Hnone), Hm. reflexivity.
  - intros request st Hm Hnone. rewrite (app_unmatched _ _ Hnone).
    destruct (method request); [contradiction|reflexivity..].
  - intros error body. split; [|split; [|split]].
    + intros [Hs|Hs]; unfold errorResponder; rewrite Hs; reflexivity.
    + intros s Hs Hlo Hhi H204 H205 H304. unfold errorResponder. rewrite Hs.
      assert (Hcode : status_or (Some s) 500 = s) by (destruct s; [lia|reflexivity]).
      rewrite Hcode. unfold valid_status, bodiless_status.
      assert (Hlo' : Nat.leb 100 s = true) by (apply Nat.leb_le; lia).
      apply Nat.leb_le in Hhi. rewrite Hlo', Hhi.
      assert (Hlt : Nat.ltb s 200 = false) by (apply Nat.ltb_ge; exact Hlo).
      apply Nat.eqb_neq in H204, H205, H304. rewrite Hlt, H204, H205, H304. reflexivity.
    + intros s Hs Hin. unfold errorResponder. rewrite Hs.
      assert (Hcode : status_or (Some s) 500 = s)
        by (destruct s; [lia|reflexivity]).
      rewrite Hcode. unfold valid_status, bodiless_status.
      assert (Hlo : Nat.leb 100 s = true) by (apply Nat.leb_le; lia).
      assert (Hhi : Nat.leb s 999 = true) by (apply Nat.leb_le; lia).
      rewrite Hlo, Hhi. cbn [andb].
      destruct Hin as [[_ Hlt]|[H|[H|H]]]; [|subst s; reflexivity..].
      apply Nat.ltb_lt in Hlt. rewrite Hlt. reflexivity.
    + intros s Hs Hout. unfold errorResponder. rewrite Hs.
      assert (Hcode : status_or (Some s) 500 = s) by (destruct s; [lia|reflexivity]).
      rewrite Hcode. unfold valid_status. destruct Hout as [[_ Hlo]|Hhi].
      * apply Nat.leb_gt in Hlo. rewrite Hlo. reflexivity.
      * apply Nat.leb_gt in Hhi. rewrite Hhi, andb_false_r. reflexivity.
  - intros request st r ps error st' Hfound Hrun. unfold app.
    rewrite Hfound, Hrun. reflexivity.
Qed.

(** *** Authentication and authorisation *)

Lemma find_by_id {A} (f : A -> string) (l : list A) (x : A) :
  NoDup (List.map f l) -> In x l ->
  List.find (fun y => String.eqb (f y) (f x)) l = Some x.
Proof.
  induction l as [|y l IH]; intros Hnd Hin; [destruct Hin|].
  cbn [List.map] in Hnd. apply NoDup_cons in Hnd. destruct Hnd as [Hy Hnd].
  cbn [List.find]. destruct Hin as [Heq|Hin].
  - subst y. rewrite String.eqb_refl. reflexivity.
  - destruct (String.eqb (f y) (f x)) eqn:E.
    + apply String.eqb_eq in E. exfalso. apply Hy. rewrite E.
      apply list_elem_of_In, in_map. exact Hin.
    + exact (IH Hnd Hin).
Qed.

Lemma UserModel_findById_cast (value : string) (id : ObjectId) (st : Store) :
  toObjectId value = Some id ->
  UserModel_findById (Some value) st
  = (inr (List.find (fun u => String.eqb (User._id u) id) (users st)), st).
Proof.
  intros Hid. unfold UserModel_findById, castObjectId, bind, get_store, ret.
  rewrite Hid. reflexivity.
Qed.

Lemma UserModel_findById_cast_user (value : string) (u : User.t) (st : Store) :
  toObjectId value = Some (User._id u) ->
  NoDup (List.map User._id (users st)) ->
  In u (users st) ->
  UserModel_findById (Some value) st = (inr (Some u), st).
Proof.
  intros Hid Hnd Hin. rewrite (UserModel_findById_cast _ _ _ Hid).
  rewrite (find_by_id User._id _ _ Hnd Hin). reflexivity.
Qed.

Lemma UserModel_findById_ok (id : ObjectId) (st : Store) :
  toObjectId id = Some id ->
  UserModel_findById (Some id) st
  = (inr (List.find (fun u => String.eqb (User._id u) id) (users st)), st).
Proof. exact (UserModel_findById_cast id id st). Qed.

Lemma UserModel_findById_user (u : User.t) (st : Store) :
  toObjectId (User._id u) = Some (User._id u) ->
  NoDup (List.map User._id (users st)) ->
  In u (users st) ->
  UserModel_findById (Some (User._id u)) st = (inr (Some u), st).
Proof. exact (UserModel_findById_cast_user (User._id u) u st). Qed.

(** C1: a route behind the authentication middleware answers 401 with
    "Authentication token is required" when the request has no token and
    401 with "Invalid token" when the token does not verify; a route behind
    the admin guard as well answers 403 with "Access denied! must be an
    admin." when the authenticated user's admin flag is false. *)
Theorem C1_authentication_gate (next : Handler) (request : Request) (st : Store) :
  (token request = None ->
   verifyJwt next request st
   = (inr (mkResponse 401 (message "Authentication token is required")), st))
  /\ (forall t,
        token request = Some t -> verify t = None ->
        verifyJwt next request st = (inr (mkResponse 401 (message "Invalid token")), st))
  /\ (forall t id u,
        token request = Some t -> verify t = Some id ->
        toObjectId id = Some (User._id u) ->
        NoDup (List.map User._id (users st)) ->
        In u (users st) -> User.admin u = false ->
        verifyJwt (requireAdmin next) request st
        = (inr (mkResponse 403 (message "Access denied! must be an admin.")), st)).
Proof.
  split; [|split].
  - intros Ht. unfold verifyJwt. rewrite Ht. reflexivity.
  - intros t Ht Hv. unfold verifyJwt. rewrite Ht, Hv. reflexivity.
  - intros t id u Ht Hv Hid Hnd Hin Hadmin. unfold verifyJwt. rewrite Ht, Hv.
    unfold requireAdmin. cbn [userId set_userId]. unfold bind at 1.
    rewrite (UserModel_findById_cast_user _ _ _ Hid Hnd Hin), Hadmin. reflexivity.
Qed.

(** *** Deleting a category *)

Lemma NoDup_map_inj {A B} (f : A -> B) (l : list A) (x y : A) :
  NoDup (List.map f l) -> In x l -> In y l -> f x = f y -> x = y.
Proof.
  induction l as [|a l IH]; intros Hnd Hx Hy Hf; [destruct Hx|].
  cbn [List.map] in Hnd. apply NoDup_cons in Hnd. destruct Hnd as [Ha Hnd].
  destruct Hx as [Hx|Hx], Hy as [Hy|Hy].
  - congruence.
  - subst a. exfalso. apply Ha. rewrite Hf. apply list_elem_of_In, in_map. exact Hy.
  - subst a. exfalso. apply Ha. rewrite <- Hf. apply list_elem_of_In, in_map. exact Hx.
  - exact (IH Hnd Hx Hy Hf).
Qed.

Lemma CategoryModel_findById_ok (value : string) (id : ObjectId) (st : Store) :
  toObjectId value = Some id ->
  CategoryModel_findById (Some value) st
  = (inr (List.find (fun c => String.eqb (Category._id c) id) (categories st)), st).
Proof.
  intros Hid. unfold CategoryModel_findById, castObjectId, bind, get_store, ret.
  rewrite Hid. reflexivity.
Qed.


(** *** Signing up *)

Lemma existsb_false {A} (f : A -> bool) (l : list A) :
  (forall x, In x l -> f x = false) -> existsb f l = false.
Proof.
  intros Hall. destruct (existsb f l) eqn:E; [|reflexivity].
  apply existsb_exists in E. destruct E as [x [Hx Hfx]].
  rewrite (Hall x Hx) in Hfx. discriminate Hfx.
Qed.

Lemma truthy_Some (s : string) : s <> "" -> truthy (Some s) = true.
Proof.
  intros Hs. unfold truthy. apply negb_true_iff, String.eqb_neq. exact Hs.
Qed.

Lemma validate_user (u : User.t) (email password name : string) :
  User.email u = Some email -> User.password u = Some password -> User.name u = Some name ->
  email <> "" -> password <> "" -> name <> "" ->
  Schema.validate userSchema user_get u = true.
Proof.
  intros He Hp Hn He' Hp' Hn'. unfold Schema.validate, userSchema. cbn.
  rewrite He, Hp, Hn. cbn.
  apply String.eqb_neq in He', Hp', Hn'. rewrite He', Hp', Hn'. reflexivity.
Qed.

Lemma UserModel_findOne_email_none (email : option string) (st : Store) :
  (forall u, In u (users st) -> User.email u <> email) ->
  UserModel_findOne_email email st = (inr None, st).
Proof.
  intros Hnew. unfold UserModel_findOne_email, bind, get_store, ret.
  replace (List.find _ (users st)) with (@None User.t); [reflexivity|].
  symmetry. apply find_none_iff. intros u Hu.
  apply bool_decide_eq_false_2. exact (Hnew u Hu).
Qed.

Lemma UserModel_findOne_email_some (email : option string) (st : Store) :
  (exists u, In u (users st) /\ User.email u = email) ->
  exists u, UserModel_findOne_email email st = (inr (Some u), st)
            /\ In u (users st) /\ User.email u = email.
Proof.
  intros Hex. unfold UserModel_findOne_email, bind, get_store, ret.
  destruct (find_some_exists (fun u => bool_decide (User.email u = email)) (users st))
    as [u [Hf [Hu Hue]]].
  { destruct Hex as [u [Hu Hue]]. exists u. split; [exact Hu|].
    apply bool_decide_eq_true_2. exact Hue. }
  exists u. rewrite Hf. split; [reflexivity|]. split; [exact Hu|].
  apply bool_decide_eq_true_1 in Hue. exact Hue.
Qed.

Lemma UserModel_save_new (u : User.t) (st : Store) :
  Schema.validate userSchema user_get u = true ->
  (forall x, In x (users st) -> User.email x <> User.email u) ->
  (forall x, In x (users st) -> User._id x <> User._id u) ->
  UserModel_save true u st
  = (inr (UserModel_preSave true u),
     set_users (users st ++ [UserModel_preSave true u]) st).
Proof.
  intros Hvalid Hemail Hid. unfold UserModel_save. rewrite Hvalid. cbn [negb].
  assert (He : User.email (UserModel_preSave true u) = User.email u).
  { unfold UserModel_preSave. destruct (User.password u); reflexivity. }
  assert (Hi : User._id (UserModel_preSave true u) = User._id u).
  { unfold UserModel_preSave. destruct (User.password u); reflexivity. }
  unfold bind at 1. unfold get_store at 1. rewrite He, Hi.
  rewrite existsb_false.
  2:{ intros x Hx. apply filter_In in Hx. destruct Hx as [Hx _].
      apply bool_decide_eq_false_2. exact (Hemail x Hx). }
  rewrite existsb_false.
  2:{ intros x Hx. apply String.eqb_neq. exact (Hid x Hx). }
  reflexivity.
Qed.

(** C4: POST /users/signup answers 400 with "A profile with this email
    already exists." and creates no user when a user already has the
    email; otherwise, given an email, a password and a name, it persists a
    new user whose stored password is the hash of the submitted one,
    issues a token for the new user and answers 201 with the message, the
    new user, the token and the decoded token. *)
Theorem C4_signup (t : option string) (b ps : gmap string string) (uid : option string)
    (st : Store) (email : string) :
  b !! "email" = Some email ->
  let request := mkRequest POST ["users"; "signup"] t b ps uid in
  ((exists u, In u (users st) /\ User.email u = Some email) ->
   app request st
   = (st, Answered (mkResponse 400 (message "A profile with this email already exists."))))
  /\ (forall password name,
        b !! "password" = Some password ->
        b !! "name" = Some name ->
        email <> "" -> password <> "" -> name <> "" ->
        (forall u, In u (users st) -> User._id u <> newObjectId) ->
        (forall u, In u (users st) -> User.email u <> Some email) ->
        let newUser :=
          User.mk newObjectId (Some email) (Some (bcrypt_hash password saltRounds))
            (Some name) (b !! "birthday") false in
        let token := createJwt (SubjectId newObjectId) in
        app request st
        = (set_users (users st ++ [newUser]) st,
           Answered (mkResponse 201
             (JObject [("message",
                        JString ("Thank you for signing up to Three Beans " +:+ name +:+ "!"));
                       ("newUser", JUser newUser);
                       ("token", JString token);
                       ("decodedJwt", decodedJwt token)])))
        /\ (bcrypt_hash password saltRounds <> password ->
            User.password newUser <> Some password)).
Proof.
  intros He request. subst request. unfold app. cbn [method path].
  rewrite find_layer_signup. cbn [route_handler]. unfold users_signup.
  cbn [body set_params]. rewrite He.
  split.
  - intros Hex.
    destruct (UserModel_findOne_email_some (Some email) st Hex) as [u [Hf _]].
    rewrite (bind_run _ _ _ _ _ Hf). reflexivity.
  - intros password name Hp Hn He' Hp' Hn' Hfresh Hnew.
    rewrite (bind_run _ _ _ _ _ (UserModel_findOne_email_none (Some email) st Hnew)).
    split; [|cbn; congruence].
    rewrite Hp, Hn. erewrite bind_run; [|apply UserModel_save_new].
    + reflexivity.
    + apply (validate_user _ email password name); (reflexivity || assumption).
    + exact Hnew.
    + exact Hfresh.
Qed.

(** *** Updating a profile *)

Lemma UserModel_findOne_email_spec (email : option string) (st : Store) :
  exists r,
    UserModel_findOne_email email st = (inr r, st)
    /\ match r with
       | Some u => In u (users st) /\ User.email u = email
       | None => forall u, In u (users st) -> User.email u <> email
       end.
Proof.
  unfold UserModel_findOne_email, bind, get_store, ret.
  destruct (List.find _ (users st)) as [u|] eqn:E.
  - exists (Some u). split; [reflexivity|]. apply find_some in E.
    destruct E as [Hu Hue]. split; [exact Hu|].
    apply bool_decide_eq_true_1 in Hue. exact Hue.
  - exists None. split; [reflexivity|]. intros u Hu.
    pose proof (find_none _ _ E u Hu) as Hue.
    apply bool_decide_eq_false_1 in Hue. exact Hue.
Qed.

Lemma UserModel_save_existing_cases (d : User.t) (st : Store) :
  (exists e, UserModel_save false d st = (inl e, st))
  \/ UserModel_save false d st = (inr d, set_users (replace_user d (users st)) st).
Proof.
  unfold UserModel_save, bind, get_store, put_store, ret, throw.
  cbn [UserModel_preSave].
  destruct (Schema.validate userSchema user_get d); cbn [negb].
  2:{ left. eexists. reflexivity. }
  destruct (existsb _ (List.filter _ (users st))).
  { left. eexists. reflexivity. }
  destruct (existsb _ (users st)).
  - right. reflexivity.
  - left. eexists. reflexivity.
Qed.

Lemma UserModel_save_existing (d : User.t) (st : Store) :
  Schema.validate userSchema user_get d = true ->
  (forall x, In x (users st) -> User._id x <> User._id d -> User.email x <> User.email d) ->
  (exists x, In x (users st) /\ User._id x = User._id d) ->
  UserModel_save false d st = (inr d, set_users (replace_user d (users st)) st).
Proof.
  intros Hvalid Hemail [x [Hx Hxd]]. unfold UserModel_save. rewrite Hvalid.
  cbn [negb UserModel_preSave]. unfold bind at 1. unfold get_store at 1.
  rewrite existsb_false.
  2:{ intros y Hy. apply filter_In in Hy. destruct Hy as [Hy Hne].
      apply bool_decide_eq_false_2. apply (Hemail y Hy).
      apply negb_true_iff, String.eqb_neq in Hne. exact Hne. }
  replace (existsb _ (users st)) with true; [reflexivity|].
  symmetry. apply existsb_exists. exists x. split; [exact Hx|].
  apply String.eqb_eq. exact Hxd.
Qed.

(** The update handler on the request of a user that the store holds:
    either the email of the patch is another user's and the answer is 400,
    or the patched document goes to [save]. *)
Lemma users_update_handler_cases (request : Request) (st : Store) (u : User.t) :
  userId request = Some (User._id u) ->
  toObjectId (User._id u) = Some (User._id u) ->
  NoDup (List.map User._id (users st)) ->
  In u (users st) ->
  (truthy (body request !! "email") = true
   /\ (exists e, In e (users st) /\ User.email e = body request !! "email"
                 /\ User._id e <> User._id u)
   /\ users_update_handler request st
      = (inr (mkResponse 400 (message "This email is already in use.")), st))
  \/ ((truthy (body request !! "email") = true ->
       (forall x, In x (users st) -> User.email x <> body request !! "email")
       \/ User.email u = body request !! "email")
      /\ users_update_handler request st
         = bind (UserModel_save false (users_update_doc (body request) u))
             (fun user =>
                respond 200
                  (JObject [("message", JString "Profile updated successfully!");
                            ("token", JString (createJwt (SubjectUser user)))]))
             st).
Proof.
  intros Huid Hid Hnd Hin. unfold users_update_handler. rewrite Huid.
  rewrite (bind_run _ _ _ _ _ (UserModel_findById_user _ _ Hid Hnd Hin)).
  unfold users_update_doc, users_update_save.
  destruct (truthy (body request !! "email")) eqn:Hte.
  - destruct (UserModel_findOne_email_spec (body request !! "email") st) as [r [Hr Hspec]].
    rewrite (bind_run _ _ _ _ _ Hr). destruct r as [e|].
    + destruct Hspec as [He Hee].
      destruct (bool_decide _) eqn:Hsame; cbn [negb].
      * right. split; [|reflexivity]. intros _. right.
        apply bool_decide_eq_true_1 in Hsame. injection Hsame as Hsame.
        rewrite <- (NoDup_map_inj User._id _ _ _ Hnd He Hin Hsame). exact Hee.
      * left. split; [reflexivity|]. split; [|reflexivity].
        exists e. split; [exact He|]. split; [exact Hee|].
        apply bool_decide_eq_false_1 in Hsame. congruence.
    + right. split; [|reflexivity]. intros _. left. exact Hspec.
  - right. split; [discriminate|reflexivity].
Qed.

Lemma truthy_inv (v : option string) :
  truthy v = true -> exists s, v = Some s /\ s <> "".
Proof.
  destruct v as [s|]; [|discriminate]. intros Hs. exists s. split; [reflexivity|].
  apply negb_true_iff, String.eqb_neq in Hs. exact Hs.
Qed.

Lemma falsy_inv (v : option string) :
  truthy v = false -> v = None \/ v = Some "".
Proof.
  destruct v as [s|]; [|left; reflexivity]. intros Hs. right.
  apply negb_false_iff, String.eqb_eq in Hs. rewrite Hs. reflexivity.
Qed.

Lemma validate_user_inv (u : User.t) :
  Schema.validate userSchema user_get u = true ->
  truthy (User.email u) = true /\ truthy (User.password u) = true
  /\ truthy (User.name u) = true.
Proof.
  unfold Schema.validate, userSchema. cbn.
  destruct (User.email u), (User.password u), (User.name u); cbn;
    rewrite ?andb_true_r, ?andb_false_r; intros Hv;
    repeat match goal with
           | H : (_ && _) = true |- _ => apply andb_true_iff in H; destruct H
           end;
    first [congruence | repeat split; assumption].
Qed.

Lemma validate_user_truthy (u : User.t) :
  truthy (User.email u) = true -> truthy (User.password u) = true ->
  truthy (User.name u) = true ->
  Schema.validate userSchema user_get u = true.
Proof.
  intros He Hp Hn.
  destruct (truthy_inv _ He) as [e [He1 He2]].
  destruct (truthy_inv _ Hp) as [p [Hp1 Hp2]].
  destruct (truthy_inv _ Hn) as [n [Hn1 Hn2]].
  exact (validate_user u e p n He1 Hp1 Hn1 He2 Hp2 Hn2).
Qed.

(** The fields of the document the update handler saves. *)
Lemma users_update_doc_fields (b : gmap string string) (u : User.t) :
  let d := users_update_doc b u in
  User._id d = User._id u
  /\ User.admin d = User.admin u
  /\ User.name d = (if truthy (b !! "name") then b !! "name" else User.name u)
  /\ User.email d = (if truthy (b !! "email") then b !! "email" else User.email u)
  /\ User.password d
     = match b !! "password" with
       | Some p => if truthy (b !! "password") then Some (bcrypt_hash p 10) else User.password u
       | None => User.password u
       end
  /\ User.birthday d = (if truthy (b !! "birthday") then b !! "birthday" else User.birthday u).
Proof.
  unfold users_update_doc.
  destruct (b !! "password") as [p|];
    destruct (truthy (b !! "name")), (truthy (b !! "email")), (truthy (b !! "birthday"));
    try destruct (truthy (Some p)); cbn; repeat split; reflexivity.
Qed.

Lemma In_replace_user_self (d u : User.t) (l : list User.t) :
  In u l -> User._id u = User._id d -> In d (replace_user d l).
Proof.
  intros Hu Hid. unfold replace_user. apply in_map_iff. exists u.
  split; [|exact Hu]. rewrite Hid, String.eqb_refl. reflexivity.
Qed.

Lemma In_replace_user_other (d v : User.t) (l : list User.t) :
  User._id v <> User._id d -> In v (replace_user d l) <-> In v l.
Proof.
  intros Hne. unfold replace_user. rewrite in_map_iff. split.
  - intros [x [Hx Hin]]. destruct (String.eqb (User._id x) (User._id d)).
    + subst v. contradiction.
    + subst v. exact Hin.
  - intros Hin. exists v. split; [|exact Hin].
    apply String.eqb_neq in Hne. rewrite Hne. reflexivity.
Qed.

(** The answer of a successful update. *)
Lemma users_update_saved (request : Request) (st : Store) (u : User.t) :
  let d := users_update_doc (body request) u in
  let k := fun user : User.t =>
    respond 200
      (JObject [("message", JString "Profile updated successfully!");
                ("token", JString (createJwt (SubjectUser user)))]) in
  (exists e, bind (UserModel_save false d) k st = (inl e, st))
  \/ bind (UserModel_save false d) k st
     = (inr (mkResponse 200
               (JObject [("message", JString "Profile updated successfully!");
                         ("token", JString (createJwt (SubjectUser d)))])),
        set_users (replace_user d (users st)) st).
Proof.
  intros d k. destruct (UserModel_save_existing_cases d st) as [[e He]|Hs].
  - left. exists e. exact (bind_throw _ _ _ _ _ He).
  - right. rewrite (bind_run _ _ _ _ _ Hs). reflexivity.
Qed.

(** An authenticated request reaches the update handler with the identity
    of its token attached. *)
Lemma users_update_authenticated (request : Request) (st : Store) (t : string) (id : ObjectId) :
  token request = Some t -> verify t = Some id ->
  users_update request st = users_update_handler (set_userId (Some id) request) st.
Proof.
  intros Ht Hv. unfold users_update, verifyJwt. rewrite Ht, Hv. reflexivity.
Qed.

(** C5: for an authenticated update whose patch has an email, the answer
    is 400 with "This email is already in use." exactly when a user other
    than the requester holds that email, and nothing is stored then; a
    user who patches the email they already hold succeeds; and when the
    patch has a password, a successful update stores its hash. *)
Theorem C5_update_email (request : Request) (st : Store) (u : User.t) (email : string) :
  userId request = Some (User._id u) ->
  toObjectId (User._id u) = Some (User._id u) ->
  In u (users st) ->
  NoDup (List.map User._id (users st)) ->
  NoDup (List.map User.email (users st)) ->
  body request !! "email" = Some email ->
  email <> "" ->
  let inUse := mkResponse 400 (message "This email is already in use.") in
  let d := users_update_doc (body request) u in
  (fst (users_update_handler request st) = inr inUse
   <-> exists v, In v (users st) /\ User.email v = Some email /\ User._id v <> User._id u)
  /\ (fst (users_update_handler request st) = inr inUse ->
      snd (users_update_handler request st) = st)
  /\ (User.email u = Some email ->
      Schema.validate userSchema user_get u = true ->
      (forall p, body request !! "password" = Some p -> bcrypt_hash p 10 <> "") ->
      users_update_handler request st
      = (inr (mkResponse 200
                (JObject [("message", JString "Profile updated successfully!");
                          ("token", JString (createJwt (SubjectUser d)))])),
         set_users (replace_user d (users st)) st))
  /\ (forall p r,
        body request !! "password" = Some p -> p <> "" ->
        fst (users_update_handler request st) = inr r -> status r = 200 ->
        exists u', In u' (users (snd (users_update_handler request st)))
                   /\ User._id u' = User._id u
                   /\ User.password u' = Some (bcrypt_hash p 10)).
Proof.
  intros Huid Hid Hin Hnd Hemails Hb Hne inUse d. subst inUse d.
  pose proof (truthy_Some _ Hne) as Hte. rewrite <- Hb in Hte.
  pose proof (users_update_doc_fields (body request) u) as Hd. cbv zeta in Hd.
  pose proof (users_update_handler_cases request st u Huid Hid Hnd Hin) as Hcases.
  pose proof (users_update_saved request st u) as Hsaved. cbv zeta in Hsaved.
  remember (users_update_doc (body request) u) as d eqn:Ed in *.
  destruct Hd as [Hdid [_ [Hdname [Hdemail [Hdpass _]]]]].
  destruct Hcases as [[_ [[e [He [Hee Hei]]] Hrun]]|[Hfree Hrun]]; rewrite Hrun.
  - (* another user holds the email *)
    split; [|split; [|split]].
    + split; [|reflexivity]. intros _. exists e. rewrite Hee, Hb in *. auto.
    + reflexivity.
    + intros Hown. exfalso. apply Hei. f_equal.
      apply (NoDup_map_inj User.email _ _ _ Hemails He Hin). congruence.
    + intros p r _ _ Hr Hs. cbn in Hr. injection Hr as <-. discriminate Hs.
  - (* the patched document is saved *)
    specialize (Hfree Hte).
    destruct Hsaved as [[err Hsave]|Hsave].
    + rewrite Hsave. split; [|split; [|split]].
      * split; [discriminate|]. intros [v [Hv [Hve Hvi]]]. exfalso.
        destruct Hfree as [Hnone|Hown].
        -- apply (Hnone v Hv). congruence.
        -- apply Hvi. f_equal.
           apply (NoDup_map_inj User.email _ _ _ Hemails Hv Hin). congruence.
      * discriminate.
      * intros Hown Hvalid Hhash. exfalso.
        assert (Hok : UserModel_save false d st
                      = (inr d, set_users (replace_user d (users st)) st)).
        { apply UserModel_save_existing.
          - destruct (validate_user_inv u Hvalid) as [Hue [Hup Hun]].
            apply validate_user_truthy.
            + rewrite Hdemail, Hte. exact Hte.
            + rewrite Hdpass. destruct (body request !! "password") as [p|] eqn:Hp; [|exact Hup].
              destruct (truthy (Some p)); [|exact Hup].
              apply truthy_Some. exact (Hhash p eq_refl).
            + rewrite Hdname. destruct (truthy (body request !! "name")) eqn:Hn; assumption.
          - intros x Hx Hxi Hxe. apply Hxi. rewrite Hdid. f_equal.
            apply (NoDup_map_inj User.email _ _ _ Hemails Hx Hin).
            rewrite Hxe, Hdemail, Hte. congruence.
          - exists u. split; [exact Hin|]. symmetry. exact Hdid. }
        rewrite (bind_run _ _ _ _ _ Hok) in Hsave. discriminate Hsave.
      * intros p r _ _ Hr. discriminate Hr.
    + rewrite Hsave. split; [|split; [|split]].
      * split; [discriminate|]. intros [v [Hv [Hve Hvi]]]. exfalso.
        destruct Hfree as [Hnone|Hown].
        -- apply (Hnone v Hv). congruence.
        -- apply Hvi. f_equal.
           apply (NoDup_map_inj User.email _ _ _ Hemails Hv Hin). congruence.
      * discriminate.
      * intros _ _ _. reflexivity.
      * intros p r Hp Hpne _ _. exists d. cbn [snd users set_users].
        split; [exact (In_replace_user_self d u _ Hin (eq_sym Hdid))|].
        split; [exact Hdid|]. rewrite Hdpass, Hp, (truthy_Some _ Hpne). reflexivity.
Qed.

Lemma users_update_handler_absent (k : string) (request : Request) (st : Store) :
  In k ["name"; "email"; "password"; "birthday"] ->
  truthy (body request !! k) = false ->
  users_update_handler (set_body (delete k (body request)) request) st
  = users_update_handler request st.
Proof.
  intros Hk Hfalsy. unfold users_update_handler, users_update_save.
  cbn [body set_body userId].
  destruct Hk as [<-|[<-|[<-|[<-|[]]]]];
    rewrite lookup_delete_eq, !lookup_delete_ne by discriminate;
    destruct (falsy_inv _ Hfalsy) as [Hv|Hv]; rewrite Hv; reflexivity.
Qed.

(** C10: in an authenticated update, a patch field whose value is falsy
    (absent, or the empty string) is treated as absent and leaves the
    stored field as it was, whatever the answer; when the update succeeds
    the truthy fields, and only they, are applied (the password as its
    hash), and the identifier, the admin flag, the other users, the items
    and the categories stay as they were. *)
Theorem C10_update_patch (request : Request) (st : Store) (u : User.t) :
  userId request = Some (User._id u) ->
  toObjectId (User._id u) = Some (User._id u) ->
  In u (users st) ->
  NoDup (List.map User._id (users st)) ->
  let b := body request in
  let reply := fst (users_update_handler request st) in
  let st' := snd (users_update_handler request st) in
  (forall k, In k ["name"; "email"; "password"; "birthday"] ->
             truthy (b !! k) = false ->
             users_update_handler (set_body (delete k b) request) st
             = users_update_handler request st)
  /\ (exists u',
        In u' (users st') /\ User._id u' = User._id u /\ User.admin u' = User.admin u
        /\ (truthy (b !! "name") = false -> User.name u' = User.name u)
        /\ (truthy (b !! "email") = false -> User.email u' = User.email u)
        /\ (truthy (b !! "password") = false -> User.password u' = User.password u)
        /\ (truthy (b !! "birthday") = false -> User.birthday u' = User.birthday u)
        /\ (forall r, reply = inr r -> status r = 200 ->
              (truthy (b !! "name") = true -> User.name u' = b !! "name")
              /\ (truthy (b !! "email") = true -> User.email u' = b !! "email")
              /\ (forall p, b !! "password" = Some p -> p <> "" ->
                            User.password u' = Some (bcrypt_hash p 10))
              /\ (truthy (b !! "birthday") = true -> User.birthday u' = b !! "birthday")))
  /\ (forall v, User._id v <> User._id u -> In v (users st') <-> In v (users st))
  /\ items st' = items st
  /\ categories st' = categories st.
Proof.
  intros Huid Hid Hin Hnd b reply st'. subst b reply st'.
  split; [intros k Hk Hf; exact (users_update_handler_absent k request st Hk Hf)|].
  pose proof (users_update_doc_fields (body request) u) as Hd. cbv zeta in Hd.
  pose proof (users_update_handler_cases request st u Huid Hid Hnd Hin) as Hcases.
  pose proof (users_update_saved request st u) as Hsaved. cbv zeta in Hsaved.
  remember (users_update_doc (body request) u) as d eqn:Ed in *.
  destruct Hd as [Hdid [Hdadmin [Hdname [Hdemail [Hdpass Hdbirth]]]]].
  assert (Hunchanged :
    forall r, users_update_handler request st = (r, st) ->
              (forall x, r = inr x -> status x <> 200) ->
    (exists u',
        In u' (users st) /\ User._id u' = User._id u /\ User.admin u' = User.admin u
        /\ (truthy (body request !! "name") = false -> User.name u' = User.name u)
        /\ (truthy (body request !! "email") = false -> User.email u' = User.email u)
        /\ (truthy (body request !! "password") = false -> User.password u' = User.password u)
        /\ (truthy (body request !! "birthday") = false -> User.birthday u' = User.birthday u)
        /\ (forall x, r = inr x -> status x = 200 ->
              (truthy (body request !! "name") = true -> User.name u' = body request !! "name")
              /\ (truthy (body request !! "email") = true
                  -> User.email u' = body request !! "email")
              /\ (forall p, body request !! "password" = Some p -> p <> "" ->
                            User.password u' = Some (bcrypt_hash p 10))
              /\ (truthy (body request !! "birthday") = true
                  -> User.birthday u' = body request !! "birthday")))
    /\ (forall v, User._id v <> User._id u -> In v (users st) <-> In v (users st))
    /\ items st = items st
    /\ categories st = categories st).
  { intros r _ Hr. split; [|split; [intros v _; reflexivity|split; reflexivity]].
    exists u. repeat (split; [first [exact Hin | reflexivity | intros _; reflexivity]|]).
    intros x Hx Hs. exfalso. exact (Hr x Hx Hs). }
  destruct Hcases as [[_ [_ Hrun]]|[_ Hrun]]; rewrite Hrun.
  - apply (Hunchanged _ Hrun). intros x Hx. injection Hx as <-. discriminate.
  - destruct Hsaved as [[err Hsave]|Hsave].
    + rewrite Hsave. rewrite Hsave in Hrun. apply (Hunchanged _ Hrun). discriminate.
    + rewrite Hsave. cbn [fst snd users items categories set_users].
      split; [|split; [|split; reflexivity]].
      * exists d. split; [exact (In_replace_user_self d u _ Hin (eq_sym Hdid))|].
        split; [exact Hdid|]. split; [exact Hdadmin|].
        split; [intros Hf; rewrite Hdname, Hf; reflexivity|].
        split; [intros Hf; rewrite Hdemail, Hf; reflexivity|].
        split; [intros Hf; rewrite Hdpass; rewrite Hf;
                destruct (body request !! "password"); reflexivity|].
        split; [intros Hf; rewrite Hdbirth, Hf; reflexivity|].
        intros r _ _.
        split; [intros Ht; rewrite Hdname, Ht; reflexivity|].
        split; [intros Ht; rewrite Hdemail, Ht; reflexivity|].
        split; [|intros Ht; rewrite Hdbirth, Ht; reflexivity].
        intros p Hp Hpne. rewrite Hdpass, Hp, (truthy_Some _ Hpne). reflexivity.
      * intros v Hv. apply In_replace_user_other. rewrite Hdid. exact Hv.
Qed.

(** ** Further properties of the sources *)

(** *** The schemas of [models/ItemModel.js] *)

(** X1: [itemSchema] accepts an item exactly when its name is a non-empty
    string, its category is there and casts to an ObjectId, and its price
    and quantity are there; description and image play no part. *)
Theorem item_accepted_iff (d : Item.t) :
  item_accepted d = true
  <-> truthy (Item.name d) = true
      /\ (exists c, Item.category d = Some c /\ is_Some (toObjectId c))
      /\ is_Some (Item.price d) /\ is_Some (Item.quantity d).
Proof.
  assert (Heq : item_accepted d
                = (match Item.category d with
                   | Some c => match toObjectId c with Some _ => true | None => false end
                   | None => false
                   end
                   && (truthy (Item.name d)
                       && (match Item.price d with Some _ => true | None => false end
                           && match Item.quantity d with Some _ => true | None => false end)))).
  { unfold item_accepted, Schema.casts, Schema.validate, itemSchema. cbn.
    destruct (Item.name d) as [n|], (Item.category d) as [c|], (Item.price d) as [p|],
      (Item.quantity d) as [q|], (Item.description d), (Item.image d);
      cbn; try destruct (toObjectId c); cbn;
      rewrite ?andb_true_r, ?andb_false_r; reflexivity. }
  rewrite Heq, !andb_true_iff. split.
  - intros [Hc [Hn [Hp Hq]]]. split; [exact Hn|]. split; [|split].
    + destruct (Item.category d) as [c|]; [|discriminate Hc].
      exists c. split; [reflexivity|].
      destruct (toObjectId c) as [o|]; [exists o; reflexivity|discriminate Hc].
    + destruct (Item.price d) as [p|]; [exists p; reflexivity|discriminate Hp].
    + destruct (Item.quantity d) as [q|]; [exists q; reflexivity|discriminate Hq].
  - intros [Hn [[c [Hc [o Ho]]] [[p Hp] [q Hq]]]].
    rewrite Hc, Ho, Hp, Hq. repeat split. exact Hn.
Qed.

Lemma existsb_eqb_In (s : string) (l : list string) :
  existsb (String.eqb s) l = true <-> In s l.
Proof.
  rewrite existsb_exists. split.
  - intros [x [Hx He]]. apply String.eqb_eq in He. subst x. exact Hx.
  - intros Hs. exists s. split; [exact Hs|apply String.eqb_refl].
Qed.

(** X2: [customisationSchema] accepts a customisation exactly when its name
    is a non-empty string, its quantity is there, and its category is one
    of milk, sugar, size and extra or is missing: the option written
    [equired] makes no path required, and the default fills a missing
    price. *)
Theorem customisation_accepted_iff (d : Customisation.t) :
  customisation_accepted d = true
  <-> truthy (Customisation.name d) = true /\ is_Some (Customisation.quantity d)
      /\ (Customisation.category d = None
          \/ exists c, Customisation.category d = Some c
                       /\ In c ["milk"; "sugar"; "size"; "extra"]).
Proof.
  assert (Heq : customisation_accepted d
                = (match Customisation.category d with
                   | Some c => existsb (String.eqb c) ["milk"; "sugar"; "size"; "extra"]
                   | None => true
                   end
                   && (truthy (Customisation.name d)
                       && match Customisation.quantity d with Some _ => true | None => false end))).
  { unfold customisation_accepted, validate_options, customisationSchema. cbn.
    destruct (Customisation.price d), (Customisation.category d),
      (Customisation.name d), (Customisation.quantity d); cbn;
      rewrite ?andb_true_r, ?andb_false_r; reflexivity. }
  rewrite Heq, !andb_true_iff. split.
  - intros [Hc [Hn Hq]]. split; [exact Hn|]. split.
    + destruct (Customisation.quantity d); [eauto|discriminate Hq].
    + destruct (Customisation.category d) as [c|]; [right|left; reflexivity].
      exists c. split; [reflexivity|]. apply existsb_eqb_In. exact Hc.
  - intros [Hn [Hq Hc]]. split; [|split; [exact Hn|]].
    + destruct Hc as [Hc|[c [Hc Hin]]]; rewrite Hc; [reflexivity|].
      apply existsb_eqb_In. exact Hin.
    + destruct Hq as [q Hq]. rewrite Hq. reflexivity.
Qed.

(** *** Logging in *)

Lemma find_layer_login :
  find_layer layers POST ["users"; "login"]
  = Some (mkRoute POST (Segments [Lit "login"]) users_login, ∅).
Proof. reflexivity. Qed.

(** X3: POST /users/login never changes the store. It answers 404 with
    "Email not found." when no user has the email of the body; when a user
    has it (emails being unique), the answer is what [bcrypt.compare] of the
    submitted and the stored password gives: 401 for a mismatch, 200 with a
    token for that user for a match, and the error responder's answer when
    it throws. *)
Theorem login_outcomes (t : option string) (b ps : gmap string string) (uid : option string)
    (st : Store) :
  let request := mkRequest POST ["users"; "login"] t b ps uid in
  fst (app request st) = st
  /\ ((forall u, In u (users st) -> User.email u <> b !! "email") ->
      snd (app request st)
      = Answered (mkResponse 404
          (JObject [("status", JString "failed"); ("data", JArray []);
                    ("message", JString "Email not found.")])))
  /\ (forall u,
        NoDup (List.map User.email (users st)) ->
        In u (users st) -> User.email u = b !! "email" ->
        snd (app request st)
        = match bcrypt_compare (b !! "password") (User.password u) with
          | inl error => errorResponder error
          | inr false =>
              Answered
                (mkResponse 401
                   (JObject [("status", JString "failed"); ("data", JArray []);
                             ("message",
                              JString "Your password is incorrect, please double check and try again.")]))
          | inr true =>
              Answered
                (mkResponse 200
                   (JObject [("message",
                              JString (js_string (User.name u) +:+ " has logged in successfully!"));
                             ("token", JString (createJwt (SubjectUser u)))]))
          end).
Proof.
  intros request. subst request. unfold app. cbn [method path].
  rewrite find_layer_login. cbn [route_handler]. unfold users_login.
  cbn [body set_params].
  destruct (UserModel_findOne_email_spec (b !! "email") st) as [r [Hr Hspec]].
  rewrite (bind_run _ _ _ _ _ Hr).
  split; [|split].
  - destruct r as [u|]; [|reflexivity].
    destruct (bcrypt_compare _ _) as [e|[|]]; reflexivity.
  - intros Hnone. destruct r as [u|]; [|reflexivity].
    destruct Hspec as [Hu Hue]. exfalso. exact (Hnone u Hu Hue).
  - intros u Hnd Hu Hue. destruct r as [v|].
    + destruct Hspec as [Hv Hve].
      assert (v = u) as ->.
      { apply (NoDup_map_inj User.email _ _ _ Hnd Hv Hu). congruence. }
      destruct (bcrypt_compare _ _) as [e|[|]]; reflexivity.
    + exfalso. exact (Hspec u Hu Hue).
Qed.

(** *** Deleting a profile *)

Lemma UserModel_findById_none (id : ObjectId) (st : Store) :
  toObjectId id = Some id ->
  (forall v, In v (users st) -> User._id v <> id) ->
  UserModel_findById (Some id) st = (inr None, st).
Proof.
  intros Hid Habsent. rewrite (UserModel_findById_ok _ _ Hid).
  replace (List.find _ (users st)) with (@None User.t); [reflexivity|].
  symmetry. apply find_none_iff. intros v Hv. apply String.eqb_neq. exact (Habsent v Hv).
Qed.

Lemma users_delete_handler_run (request : Request) (st : Store) (u : User.t) :
  userId request = Some (User._id u) ->
  toObjectId (User._id u) = Some (User._id u) ->
  NoDup (List.map User._id (users st)) ->
  In u (users st) ->
  users_delete_handler request st
  = (inr (mkResponse 200
            (message ("User " +:+ js_string (User.name u) +:+ " deleted successfully."))),
     set_users (List.filter (fun x => negb (String.eqb (User._id x) (User._id u))) (users st)) st).
Proof.
  intros Huid Hid Hnd Hin. unfold users_delete_handler. rewrite Huid.
  rewrite (bind_run _ _ _ _ _ (UserModel_findById_user _ _ Hid Hnd Hin)).
  unfold UserModel_findByIdAndDelete.
  unfold bind at 1. unfold bind at 1.
  rewrite (UserModel_findById_user _ _ Hid Hnd Hin). reflexivity.
Qed.

(** X4: the handler of DELETE /users/delete, for a request whose identity
    is an identifier in the form the store writes it: when no user has it,
    the answer is 404 "User not found." and the store is unchanged; when a
    user has it, that user and no other is removed, the items and
    categories stay, and the answer is 200 with "User <name> deleted
    successfully.". *)
Theorem delete_profile (request : Request) (st : Store) (id : ObjectId) :
  userId request = Some id ->
  toObjectId id = Some id ->
  ((forall v, In v (users st) -> User._id v <> id) ->
   users_delete_handler request st = (inr (mkResponse 404 (message "User not found.")), st))
  /\ (forall u,
        NoDup (List.map User._id (users st)) -> In u (users st) -> User._id u = id ->
        exists st',
          users_delete_handler request st
          = (inr (mkResponse 200
                    (message ("User " +:+ js_string (User.name u) +:+ " deleted successfully."))),
             st')
          /\ (forall v, In v (users st') <-> In v (users st) /\ v <> u)
          /\ items st' = items st
          /\ categories st' = categories st).
Proof.
  intros Huid Hid. split.
  - intros Habsent. unfold users_delete_handler. rewrite Huid.
    rewrite (bind_run _ _ _ _ _ (UserModel_findById_none _ _ Hid Habsent)). reflexivity.
  - intros u Hnd Hin Hu. subst id.
    rewrite (users_delete_handler_run _ _ _ Huid Hid Hnd Hin).
    eexists. split; [reflexivity|]. cbn [users items categories set_users].
    split; [|split; reflexivity].
    intros v. rewrite filter_In. split.
    + intros [Hv Hne]. split; [exact Hv|]. intros ->.
      rewrite String.eqb_refl in Hne. discriminate Hne.
    + intros [Hv Hne]. split; [exact Hv|].
      destruct (String.eqb (User._id v) (User._id u)) eqn:E; [|reflexivity].
      apply String.eqb_eq in E. exfalso. apply Hne.
      exact (NoDup_map_inj User._id _ _ _ Hnd Hv Hin E).
Qed.

(** X5: once a profile is deleted, the identity of its token resolves no
    more: the same request answers 404 "User not found." to a second delete
    and to an update, and changes nothing. *)
Theorem delete_profile_then (request : Request) (st : Store) (u : User.t) :
  userId request = Some (User._id u) ->
  toObjectId (User._id u) = Some (User._id u) ->
  NoDup (List.map User._id (users st)) ->
  In u (users st) ->
  let st' := snd (users_delete_handler request st) in
  users_delete_handler request st' = (inr (mkResponse 404 (message "User not found.")), st')
  /\ users_update_handler request st' = (inr (mkResponse 404 (message "User not found.")), st').
Proof.
  intros Huid Hid Hnd Hin st'. subst st'.
  rewrite (users_delete_handler_run _ _ _ Huid Hid Hnd Hin). cbn [snd].
  set (st' := set_users _ st).
  assert (Hnone : UserModel_findById (Some (User._id u)) st' = (inr None, st')).
  { apply (UserModel_findById_none _ _ Hid). intros v Hv.
    unfold st' in Hv. cbn [users set_users] in Hv. apply filter_In in Hv.
    destruct Hv as [_ Hne]. apply negb_true_iff, String.eqb_neq in Hne. exact Hne. }
  split.
  - unfold users_delete_handler. rewrite Huid, (bind_run _ _ _ _ _ Hnone). reflexivity.
  - unfold users_update_handler. rewrite Huid, (bind_run _ _ _ _ _ Hnone). reflexivity.
Qed.

(** *** The routes of [server.js] and of the routers *)

Lemma same_segment_true (a x : string) :
  same_segment a x = true -> lowercase x = lowercase a.
Proof.
  unfold same_segment. intros H. apply String.eqb_eq in H. symmetry. exact H.
Qed.

(** What the handlers a GET request reaches do: they leave the store as it
    is, and an error they throw is one of mongoose's. *)
Lemma get_handlers_run (h : Handler) (request : Request) (st : Store) :
  In h [welcome; users_get; menu_get; menu_get_categories; menu_get_id;
        menu_get_categories_categoryId; pageNotFound] ->
  snd (h request st) = st
  /\ match fst (h request st) with
     | inl error => error_status error = None
     | inr _ => True
     end.
Proof.
  intros Hin. cbn [In] in Hin.
  destruct Hin as [<-|[<-|[<-|[<-|[<-|[<-|[<-|[]]]]]]]];
    try (split; [reflexivity|exact I]).
  - unfold menu_get_id, ItemModel_findById, castObjectId, bind, get_store, ret, throw, respond.
    destruct (params request !! "id") as [v|]; [|split; [reflexivity|exact I]].
    destruct (toObjectId v); [|split; reflexivity].
    destruct (List.find _ (items st)); split; first [reflexivity|exact I].
  - unfold menu_get_categories_categoryId, ItemModel_find_category, castObjectId, bind,
      get_store, ret, throw, respond.
    destruct (params request !! "categoryId") as [v|].
    + destruct (toObjectId v); [|split; reflexivity].
      destruct (Nat.eqb _ 0); split; first [reflexivity|exact I].
    + destruct (Nat.eqb _ 0); split; first [reflexivity|exact I].
Qed.

Local Arguments same_segment : simpl never.

(** The handlers a GET request can reach outside /orders and /favourites. *)
Lemma find_layer_get (p : list string) (r : Route) (ps : gmap string string) :
  under "orders" p = false ->
  under "favourites" p = false ->
  find_layer layers GET p = Some (r, ps) ->
  In (route_handler r)
    [welcome; users_get; menu_get; menu_get_categories; menu_get_id;
     menu_get_categories_categoryId; pageNotFound].
Proof.
  intros Ho Hf. unfold layers, routes. cbn [List.app find_layer].
  destruct p as [|x p'].
  { cbn. intros [= <- _]. cbn. tauto. }
  cbn [under] in Ho, Hf. rewrite Ho, Hf.
  replace (match_route (mkRoute GET (Segments []) welcome) GET (x :: p')) with
    (@None (gmap string string)) by reflexivity.
  replace (match_route (mkRoute GET Star pageNotFound) GET (x :: p')) with
    (Some (∅ : gmap string string)) by reflexivity.
  destruct (same_segment "users" x).
  - destruct p' as [|y [|z p'']].
    + cbn. intros [= <- _]. cbn. tauto.
    + cbn. destruct (same_segment "menu" x); cbn;
        repeat match goal with
               | |- context [same_segment ?a y] => destruct (same_segment a y); cbn
               end; intros [= <- _]; cbn; tauto.
    + cbn. destruct (same_segment "menu" x); cbn;
        repeat match goal with
               | |- context [same_segment ?a ?b] => destruct (same_segment a b); cbn
               end;
        try destruct p''; cbn; intros [= <- _]; cbn; tauto.
  - destruct (same_segment "menu" x); [|intros [= <- _]; cbn; tauto].
    destruct p' as [|y [|z [|w p'']]]; cbn;
      repeat match goal with
             | |- context [same_segment ?a ?b] => destruct (same_segment a b); cbn
             end; intros [= <- _]; cbn; tauto.
Qed.

(** X6: outside /orders and /favourites, the application answers every GET
    request itself: a route runs, or the catch-all does, and Express's final
    handler is never reached. *)
Theorem get_always_answered (request : Request) (st : Store) :
  method request = GET ->
  under "orders" (path request) = false ->
  under "favourites" (path request) = false ->
  exists response, snd (app request st) = Answered response.
Proof.
  intros Hm Ho Hf. unfold app. rewrite Hm.
  destruct (find_layer layers GET (path request)) as [[r ps]|] eqn:Hfound.
  - pose proof (find_layer_get _ _ _ Ho Hf Hfound) as Hin.
    destruct (get_handlers_run _ (set_params ps request) st Hin) as [_ Herr].
    destruct (route_handler r (set_params ps request) st) as [[e|response] st'];
      cbn [fst snd] in *.
    + rewrite (errorResponder_no_status _ Herr). eexists. reflexivity.
    + eexists. reflexivity.
  - exfalso. revert Hfound. unfold layers. rewrite find_layer_app.
    destruct (find_layer routes GET (path request)); discriminate.
Qed.

Lemma find_route_menu_mutation (m : Method) (p : list string) :
  m <> GET -> find_route menuRouter m p = None.
Proof.
  intros Hm. destruct m; [contradiction|reflexivity..].
Qed.

Local Ltac refute_in :=
  let H := fresh "H" in
  cbn [List.map In]; intros H;
  repeat match type of H with _ \/ _ => destruct H as [H|H] end;
  try contradiction;
  try discriminate H;
  injection H; clear H; intros;
  repeat match goal with
         | H' : _ :: _ = _ :: _ |- _ => injection H'; clear H'; intros
         end;
  first [ match goal with
          | H' : _ :: _ = [] |- _ => discriminate H'
          | H' : [] = _ :: _ |- _ => discriminate H'
          end
        | match goal with
          | E : _ = lowercase ?x, F : same_segment _ ?x = false |- _ =>
              unfold same_segment in F; rewrite <- E in F; vm_compute in F; discriminate F
          end ].

Local Ltac prove_in H1 H2 :=
  cbn [List.map]; rewrite (same_segment_true _ _ H1), (same_segment_true _ _ H2);
  vm_compute; auto 6.

Lemma find_layer_mutation (m : Method) (p : list string) :
  m <> GET ->
  under "orders" p = false ->
  under "favourites" p = false ->
  (In (m, List.map lowercase p)
      [(POST, ["users"; "signup"]); (POST, ["users"; "login"]);
       (PATCH, ["users"; "update"]); (DELETE, ["users"; "delete"])]
   /\ exists r ps,
        find_layer routes m p = Some (r, ps)
        /\ In (route_handler r) [users_signup; users_login; users_update; users_delete])
  \/ (~ In (m, List.map lowercase p)
          [(POST, ["users"; "signup"]); (POST, ["users"; "login"]);
           (PATCH, ["users"; "update"]); (DELETE, ["users"; "delete"])]
      /\ find_layer routes m p = None).
Proof.
  intros Hm Ho Hf. destruct p as [|x p'].
  { right. split; [refute_in|destruct m; [contradiction|reflexivity..]]. }
  cbn [under] in Ho, Hf. unfold routes. cbn [find_layer]. rewrite Ho, Hf.
  replace (match_route (mkRoute GET (Segments []) welcome) m (x :: p')) with
    (@None (gmap string string)) by (destruct m; reflexivity).
  rewrite (find_route_menu_mutation m p' Hm).
  destruct (same_segment "users" x) eqn:Hux.
  2:{ right. split; [refute_in|destruct (same_segment "menu" x); reflexivity]. }
  assert (Hmx : (if same_segment "menu" x then @None (Route * gmap string string) else None)
                = None) by (destruct (same_segment "menu" x); reflexivity).
  rewrite Hmx. clear Hmx.
  destruct p' as [|y [|z p'']].
  - right. split; [refute_in|destruct m; [contradiction|reflexivity..]].
  - destruct m; [contradiction|..]; cbn;
      repeat match goal with
             | |- context [same_segment ?a y] =>
                 let E := fresh "E" in destruct (same_segment a y) eqn:E
             end;
      first [ left; split; [|eexists; eexists; split; [reflexivity|cbn; auto 6]];
              match goal with
              | E : same_segment _ y = true |- _ => prove_in Hux E
              end
            | right; split; [refute_in|reflexivity] ].
  - right. split; [refute_in|].
    destruct m; [contradiction|..]; cbn;
      repeat match goal with
             | |- context [same_segment ?a y] => destruct (same_segment a y)
             end; reflexivity.
Qed.

(** X7: outside /orders and /favourites, a POST, PATCH or DELETE request
    that is, letter case apart, POST /users/signup, POST /users/login,
    PATCH /users/update or DELETE /users/delete runs one of the four
    handlers of the user router that are no GET; every other one, so every
    one under /menu, matches no route: it is left to Express's final
    handler and the store is not touched. *)
Theorem mutation_routes (request : Request) (st : Store) :
  method request <> GET ->
  under "orders" (path request) = false ->
  under "favourites" (path request) = false ->
  let listed :=
    In (method request, List.map lowercase (path request))
      [(POST, ["users"; "signup"]); (POST, ["users"; "login"]);
       (PATCH, ["users"; "update"]); (DELETE, ["users"; "delete"])] in
  (listed ->
   exists r ps,
     find_layer layers (method request) (path request) = Some (r, ps)
     /\ In (route_handler r) [users_signup; users_login; users_update; users_delete])
  /\ (~ listed -> app request st = (st, FinalHandler))
  /\ (snd (app request st) <> FinalHandler -> listed).
Proof.
  intros Hm Ho Hf listed. subst listed.
  assert (Hnone : ~ In (method request, List.map lowercase (path request))
                      [(POST, ["users"; "signup"]); (POST, ["users"; "login"]);
                       (PATCH, ["users"; "update"]); (DELETE, ["users"; "delete"])] ->
                  app request st = (st, FinalHandler)).
  { intros Hout. unfold app, layers. rewrite find_layer_app.
    destruct (find_layer_mutation _ _ Hm Ho Hf) as [[Hin _]|[_ Hnone]];
      [exfalso; exact (Hout Hin)|].
    rewrite Hnone.
    replace (find_layer [Direct (mkRoute GET Star pageNotFound)] (method request) (path request))
      with (@None (Route * gmap string string))
      by (destruct (method request); [contradiction|reflexivity..]).
    reflexivity. }
  split; [|split; [exact Hnone|]].
  - intros Hin. unfold layers. rewrite find_layer_app.
    destruct (find_layer_mutation _ _ Hm Ho Hf) as [[_ [r [ps [Hfound Hh]]]]|[Hout _]];
      [|exfalso; exact (Hout Hin)].
    rewrite Hfound. exists r, ps. split; [reflexivity|exact Hh].
  - intros Hans.
    destruct (find_layer_mutation _ _ Hm Ho Hf) as [[Hin _]|[Hout _]]; [exact Hin|].
    exfalso. apply Hans. rewrite (Hnone Hout). reflexivity.
Qed.

(** X8: outside /orders and /favourites, a GET request never changes the
    store, whatever it is answered. *)
Theorem get_never_writes (request : Request) (st : Store) :
  method request = GET ->
  under "orders" (path request) = false ->
  under "favourites" (path request) = false ->
  fst (app request st) = st.
Proof.
  intros Hm Ho Hf. unfold app. rewrite Hm.
  destruct (find_layer layers GET (path request)) as [[r ps]|] eqn:Hfound; [|reflexivity].
  pose proof (find_layer_get _ _ _ Ho Hf Hfound) as Hin.
  destruct (get_handlers_run _ (set_params ps request) st Hin) as [Hread _].
  destruct (route_handler r (set_params ps request) st) as [[e|response] st'];
    cbn [snd] in Hread; subst st'; [|reflexivity].
  destruct (errorResponder e); reflexivity.
Qed.

(** X9: a route parameter that does not cast to an ObjectId makes the
    query throw; both parameter routes of the menu hand the error to the
    error responder, which answers 500 with the message "Error Occured!"
    and the message of mongoose's error, and the store is unchanged. GET
    /menu/items, which the tests call, is such a request. *)
Theorem menu_param_cast_error (value : string) (t : option string) (b ps : gmap string string)
    (uid : option string) (st : Store) :
  toObjectId value = None ->
  let answer path :=
    Answered (mkResponse 500
      (JObject [("message", JString "Error Occured!");
                ("error", JString (mongooseMessage (CastFailed "Item" path value)))])) in
  (same_segment "categories" value = false ->
   app (mkRequest GET ["menu"; value] t b ps uid) st = (st, answer "_id"))
  /\ app (mkRequest GET ["menu"; "categories"; value] t b ps uid) st = (st, answer "category").
Proof.
  intros Hcast answer. subst answer. split.
  - intros Hroute.
    unfold app. cbn [method path]. rewrite (find_layer_menu_id _ Hroute).
    cbn [route_handler]. unfold menu_get_id. cbn [params set_params].
    rewrite lookup_insert_eq.
    unfold ItemModel_findById, castObjectId, bind, throw. rewrite Hcast. reflexivity.
  - unfold app. cbn [method path]. rewrite find_layer_menu_category.
    cbn [route_handler]. unfold menu_get_categories_categoryId. cbn [params set_params].
    rewrite lookup_insert_eq.
    unfold ItemModel_find_category, castObjectId, bind, throw. rewrite Hcast. reflexivity.
Qed.

(** X10: what GET /menu lists can be fetched one by one: for every stored
    item (identifiers being unique) and every path value that casts to its
    identifier, GET /menu/<value> answers 200 with that very item. *)
Theorem listed_item_fetched (d : Item.t) (value : string) (t : option string)
    (b ps : gmap string string) (uid : option string) (st : Store) :
  NoDup (List.map Item._id (items st)) ->
  toObjectId value = Some (Item._id d) ->
  same_segment "categories" value = false ->
  In (JItem d) (List.map JItem (items st)) ->
  app (mkRequest GET ["menu"] t b ps uid) st
  = (st, Answered (mkResponse 200 (JObject [("result", JArray (List.map JItem (items st)))])))
  /\ app (mkRequest GET ["menu"; value] t b ps uid) st
     = (st, Answered (mkResponse 200 (JObject [("result", JItem d)]))).
Proof.
  intros Hnd Hid Hroute Hlisted. split; [reflexivity|].
  assert (Hin : In d (items st)).
  { apply in_map_iff in Hlisted. destruct Hlisted as [x [Hx Hin]].
    injection Hx as ->. exact Hin. }
  unfold app. cbn [method path]. rewrite (find_layer_menu_id _ Hroute).
  cbn [route_handler]. unfold menu_get_id. cbn [params set_params].
  rewrite lookup_insert_eq.
  unfold ItemModel_findById, castObjectId, bind, get_store, ret. rewrite Hid.
  rewrite (find_by_id Item._id _ _ Hnd Hin). reflexivity.
Qed.

(** *** Signing up, then *)

(** A signup that meets no user of its email and brings the required
    fields. *)
Lemma signup_run (t : option string) (b ps : gmap string string) (uid : option string)
    (st : Store) (email password name : string) :
  b !! "email" = Some email -> b !! "password" = Some password -> b !! "name" = Some name ->
  email <> "" -> password <> "" -> name <> "" ->
  (forall u, In u (users st) -> User._id u <> newObjectId) ->
  (forall u, In u (users st) -> User.email u <> Some email) ->
  fst (app (mkRequest POST ["users"; "signup"] t b ps uid) st)
  = set_users
      (users st
       ++ [User.mk newObjectId (Some email) (Some (bcrypt_hash password saltRounds))
             (Some name) (b !! "birthday") false])
      st.
Proof.
  intros He Hp Hn He' Hp' Hn' Hfresh Hnew. unfold app. cbn [method path].
  rewrite find_layer_signup. cbn [route_handler]. unfold users_signup.
  cbn [body set_params]. rewrite He, Hp, Hn.
  rewrite (bind_run _ _ _ _ _ (UserModel_findOne_email_none (Some email) st Hnew)).
  erewrite bind_run; [|apply UserModel_save_new].
  - reflexivity.
  - apply (validate_user _ email password name); (reflexivity || assumption).
  - exact Hnew.
  - exact Hfresh.
Qed.

(** X11: after a signup that created a user, a second signup with the same
    email, whatever else its body holds, answers 400 with "A profile with
    this email already exists." and creates nothing. *)
Theorem signup_twice (t t2 : option string) (b b2 ps ps2 : gmap string string)
    (uid uid2 : option string) (st : Store) (email password name : string) :
  b !! "email" = Some email -> b !! "password" = Some password -> b !! "name" = Some name ->
  email <> "" -> password <> "" -> name <> "" ->
  (forall u, In u (users st) -> User._id u <> newObjectId) ->
  (forall u, In u (users st) -> User.email u <> Some email) ->
  b2 !! "email" = Some email ->
  let st1 := fst (app (mkRequest POST ["users"; "signup"] t b ps uid) st) in
  app (mkRequest POST ["users"; "signup"] t2 b2 ps2 uid2) st1
  = (st1, Answered (mkResponse 400 (message "A profile with this email already exists."))).
Proof.
  intros He Hp Hn He' Hp' Hn' Hfresh Hnew He2 st1. subst st1.
  rewrite (signup_run t b ps uid st email password name) by assumption.
  set (st1 := set_users _ st).
  unfold app. cbn [method path]. rewrite find_layer_signup. cbn [route_handler].
  unfold users_signup. cbn [body set_params]. rewrite He2.
  destruct (UserModel_findOne_email_some (Some email) st1) as [u [Hf _]].
  { exists (User.mk newObjectId (Some email) (Some (bcrypt_hash password saltRounds))
              (Some name) (b !! "birthday") false).
    split; [|reflexivity]. unfold st1. cbn [users set_users].
    apply in_or_app. right. left. reflexivity. }
  rewrite (bind_run _ _ _ _ _ Hf). reflexivity.
Qed.

(** X12: after a signup that created a user, a login with the same email
    and password finds that user and, [bcrypt.compare] accepting the
    password against the hash the signup stored, answers 200 with the
    greeting of the new user's name and a token for the new user. *)
Theorem signup_then_login (t t2 : option string) (b ps ps2 : gmap string string)
    (uid uid2 : option string) (st : Store) (email password name : string) :
  b !! "email" = Some email -> b !! "password" = Some password -> b !! "name" = Some name ->
  email <> "" -> password <> "" -> name <> "" ->
  (forall u, In u (users st) -> User._id u <> newObjectId) ->
  (forall u, In u (users st) -> User.email u <> Some email) ->
  bcrypt_compare (Some password) (Some (bcrypt_hash password saltRounds)) = inr true ->
  let st1 := fst (app (mkRequest POST ["users"; "signup"] t b ps uid) st) in
  let newUser :=
    User.mk newObjectId (Some email) (Some (bcrypt_hash password saltRounds)) (Some name)
      (b !! "birthday") false in
  app (mkRequest POST ["users"; "login"] t2 b ps2 uid2) st1
  = (st1,
     Answered (mkResponse 200
       (JObject [("message", JString (name +:+ " has logged in successfully!"));
                 ("token", JString (createJwt (SubjectUser newUser)))]))).
Proof.
  intros He Hp Hn He' Hp' Hn' Hfresh Hnew Hcompare st1 newUser. subst st1.
  rewrite (signup_run t b ps uid st email password name) by assumption.
  fold newUser. set (st1 := set_users _ st).
  unfold app. cbn [method path]. rewrite find_layer_login. cbn [route_handler].
  unfold users_login. cbn [body set_params]. rewrite He, Hp.
  destruct (UserModel_findOne_email_spec (Some email) st1) as [r [Hr Hspec]].
  rewrite (bind_run _ _ _ _ _ Hr). destruct r as [v|].
  - destruct Hspec as [Hv Hve]. unfold st1 in Hv. cbn [users set_users] in Hv.
    apply in_app_or in Hv. destruct Hv as [Hv|[<-|[]]].
    + exfalso. exact (Hnew v Hv Hve).
    + cbn [User.password User.name newUser]. rewrite Hcompare. reflexivity.
  - exfalso. apply (Hspec newUser); [|reflexivity].
    unfold st1. cbn [users set_users]. apply in_or_app. right. left. reflexivity.
Qed.

(** *** Updating a profile, further *)

(** X13: the update handler looks the requester up before it reads the
    patch: for an identity that casts to an identifier no user has it
    answers 404 "User not found." whatever the body holds, and for one that
    does not cast it, like the delete handler, hands the cast error to
    [next]; the store is unchanged in each case. *)
Theorem update_unknown_identity (request : Request) (st : Store) (value : string) :
  userId request = Some value ->
  (forall id,
     toObjectId value = Some id ->
     (forall v, In v (users st) -> User._id v <> id) ->
     users_update_handler request st = (inr (mkResponse 404 (message "User not found.")), st))
  /\ (toObjectId value = None ->
      users_update_handler request st = (inl (mongooseError (CastFailed "User" "_id" value)), st)
      /\ users_delete_handler request st
         = (inl (mongooseError (CastFailed "User" "_id" value)), st)).
Proof.
  intros Huid. split.
  - intros id Hid Habsent. unfold users_update_handler. rewrite Huid.
    assert (Hnone : UserModel_findById (Some value) st = (inr None, st)).
    { rewrite (UserModel_findById_cast _ _ _ Hid).
      replace (List.find _ (users st)) with (@None User.t); [reflexivity|].
      symmetry. apply find_none_iff. intros v Hv. apply String.eqb_neq.
      exact (Habsent v Hv). }
    rewrite (bind_run _ _ _ _ _ Hnone). reflexivity.
  - intros Hid.
    assert (Hthrow : UserModel_findById (Some value) st
                     = (inl (mongooseError (CastFailed "User" "_id" value)), st)).
    { unfold UserModel_findById, castObjectId, bind, throw. rewrite Hid. reflexivity. }
    split.
    + unfold users_update_handler. rewrite Huid. exact (bind_throw _ _ _ _ _ Hthrow).
    + unfold users_delete_handler. rewrite Huid. exact (bind_throw _ _ _ _ _ Hthrow).
Qed.

Lemma map_id_replace_user (d : User.t) (l : list User.t) :
  List.map User._id (replace_user d l) = List.map User._id l.
Proof.
  unfold replace_user. rewrite List.map_map. apply map_ext. intros x.
  destruct (String.eqb (User._id x) (User._id d)) eqn:E; [|reflexivity].
  apply String.eqb_eq in E. symmetry. exact E.
Qed.

Lemma map_email_replace_user_same (d : User.t) (l : list User.t) :
  (forall x, In x l -> User._id x = User._id d -> User.email x = User.email d) ->
  List.map User.email (replace_user d l) = List.map User.email l.
Proof.
  intros Hsame. unfold replace_user. rewrite List.map_map. apply map_ext_in. intros x Hx.
  destruct (String.eqb (User._id x) (User._id d)) eqn:E; [|reflexivity].
  apply String.eqb_eq in E. symmetry. exact (Hsame x Hx E).
Qed.

Lemma NoDup_email_replace_user_new (d : User.t) (l : list User.t) :
  NoDup (List.map User._id l) ->
  NoDup (List.map User.email l) ->
  (forall x, In x l -> User.email x <> User.email d) ->
  NoDup (List.map User.email (replace_user d l)).
Proof.
  induction l as [|a l IH]; intros Hids Hemails Hnew; [constructor|].
  cbn [List.map] in Hids, Hemails. apply NoDup_cons in Hids, Hemails.
  destruct Hids as [Ha Hids], Hemails as [Hea Hemails].
  assert (Hnew' : forall x, In x l -> User.email x <> User.email d).
  { intros x Hx. apply Hnew. right. exact Hx. }
  unfold replace_user. cbn [List.map]. fold (replace_user d l).
  destruct (String.eqb (User._id a) (User._id d)) eqn:E.
  - apply String.eqb_eq in E.
    rewrite map_email_replace_user_same.
    + apply NoDup_cons. split; [|exact Hemails].
      intros Hin. apply list_elem_of_In, in_map_iff in Hin.
      destruct Hin as [x [Hx Hin]]. exact (Hnew' x Hin Hx).
    + intros x Hx Hxd. exfalso. apply Ha. rewrite E, <- Hxd.
      apply list_elem_of_In, in_map. exact Hx.
  - apply NoDup_cons. split; [|exact (IH Hids Hemails Hnew')].
    intros Hin. apply list_elem_of_In, in_map_iff in Hin.
    destruct Hin as [x [Hx Hin]]. unfold replace_user in Hin.
    apply in_map_iff in Hin. destruct Hin as [y [Hy Hin]].
    destruct (String.eqb (User._id y) (User._id d)).
    + subst x. apply (Hnew a (or_introl eq_refl)). symmetry. exact Hx.
    + subst x. apply Hea. rewrite <- Hx. apply list_elem_of_In, in_map. exact Hin.
Qed.

(** X14: the check of the update handler on the email is enough to keep
    the emails of the users apart, without the unique index of the store:
    for a requester that is found (identifiers and emails being unique),
    either the handler answers 400 "This email is already in use." and the
    store is unchanged, or it hands the patched document to [save], and
    then no other user holds the email of that document, so that the users
    with the document written in place of the requester have unique
    emails. *)
Theorem update_keeps_unique (request : Request) (st : Store) (u : User.t) :
  userId request = Some (User._id u) ->
  toObjectId (User._id u) = Some (User._id u) ->
  NoDup (List.map User._id (users st)) ->
  NoDup (List.map User.email (users st)) ->
  In u (users st) ->
  let d := users_update_doc (body request) u in
  users_update_handler request st
  = (inr (mkResponse 400 (message "This email is already in use.")), st)
  \/ (users_update_handler request st
      = bind (UserModel_save false d)
          (fun user =>
             respond 200
               (JObject [("message", JString "Profile updated successfully!");
                         ("token", JString (createJwt (SubjectUser user)))]))
          st
      /\ (forall x, In x (users st) -> User._id x <> User._id u ->
                    User.email x <> User.email d)
      /\ NoDup (List.map User._id (replace_user d (users st)))
      /\ NoDup (List.map User.email (replace_user d (users st)))).
Proof.
  intros Huid Hid Hids Hemails Hin d.
  pose proof (users_update_doc_fields (body request) u) as Hd. cbv zeta in Hd.
  destruct (users_update_handler_cases request st u Huid Hid Hids Hin)
    as [[_ [_ Hrun]]|[Hfree Hrun]]; [left; exact Hrun|right].
  split; [exact Hrun|]. subst d.
  remember (users_update_doc (body request) u) as d eqn:Ed in *.
  destruct Hd as [Hdid [_ [_ [Hdemail _]]]].
  assert (Hcases : User.email d = User.email u
                   \/ forall x, In x (users st) -> User.email x <> User.email d).
  { rewrite Hdemail. destruct (truthy (body request !! "email")) eqn:Hte; [|left; reflexivity].
    destruct (Hfree eq_refl) as [Hnone|Hown]; [right; exact Hnone|left; symmetry; exact Hown]. }
  split; [|split; [rewrite map_id_replace_user; exact Hids|]].
  - intros x Hx Hne. destruct Hcases as [Hsame|Hnew]; [|exact (Hnew x Hx)].
    rewrite Hsame. intros He. apply Hne. f_equal.
    exact (NoDup_map_inj User.email _ _ _ Hemails Hx Hin He).
  - destruct Hcases as [Hsame|Hnew].
    + rewrite map_email_replace_user_same; [exact Hemails|].
      intros x Hx Hxd. rewrite Hsame. f_equal.
      apply (NoDup_map_inj User._id _ _ _ Hids Hx Hin). congruence.
    + exact (NoDup_email_replace_user_new d _ Hids Hemails Hnew).
Qed.

Lemma UserModel_save_new_cases (u : User.t) (st : Store) :
  (exists e, UserModel_save true u st = (inl e, st))
  \/ exists u',
       UserModel_save true u st = (inr u', set_users (users st ++ [u']) st)
       /\ User.email u' = User.email u.
Proof.
  unfold UserModel_save, bind, get_store, put_store, ret, throw.
  destruct (Schema.validate userSchema user_get u); cbn [negb].
  2:{ left. eexists. reflexivity. }
  destruct (existsb _ (List.filter _ (users st))).
  { left. eexists. reflexivity. }
  destruct (existsb _ (users st)).
  { left. eexists. reflexivity. }
  right. eexists. split; [reflexivity|].
  unfold UserModel_preSave. destruct (User.password u); reflexivity.
Qed.

(** X15: the lookup of the signup handler by email is enough to keep a
    second holder of an email out, without the unique index of the store:
    either a user has the email of the body, the handler answers 400 "A
    profile with this email already exists." and the store is unchanged, or
    it hands the new document to [save], and then no user holds the email
    of that document, so that the users (their emails being unique) with
    the document as it is written added have unique emails. *)
Theorem signup_keeps_emails_unique (request : Request) (st : Store) :
  let b := body request in
  let newUser :=
    User.mk newObjectId (b !! "email") (b !! "password") (b !! "name") (b !! "birthday")
      false in
  ((exists u, In u (users st) /\ User.email u = b !! "email")
   /\ users_signup request st
      = (inr (mkResponse 400 (message "A profile with this email already exists.")), st))
  \/ (users_signup request st
      = bind (UserModel_save true newUser)
          (fun newUser =>
             respond 201
               (JObject [("message",
                          JString ("Thank you for signing up to Three Beans "
                                   +:+ js_string (b !! "name") +:+ "!"));
                         ("newUser", JUser newUser);
                         ("token", JString (createJwt (SubjectId (User._id newUser))));
                         ("decodedJwt", decodedJwt (createJwt (SubjectId (User._id newUser))))]))
          st
      /\ (forall x, In x (users st) -> User.email x <> User.email newUser)
      /\ (NoDup (List.map User.email (users st)) ->
          NoDup (List.map User.email (users st ++ [UserModel_preSave true newUser])))).
Proof.
  intros b newUser. unfold users_signup. fold b.
  destruct (UserModel_findOne_email_spec (b !! "email") st) as [r [Hr Hspec]].
  rewrite (bind_run _ _ _ _ _ Hr). destruct r as [u|].
  - left. destruct Hspec as [Hu Hue]. split; [|reflexivity]. exists u. split; assumption.
  - right. split; [reflexivity|]. split; [exact Hspec|].
    intros Hemails. rewrite List.map_app. apply NoDup_app. split; [exact Hemails|]. split.
    + intros e He [Heq|[]]%list_elem_of_In. cbn [List.map] in Heq.
      apply list_elem_of_In, in_map_iff in He. destruct He as [x [Hx Hin]].
      assert (Hpre : User.email (UserModel_preSave true newUser) = b !! "email").
      { unfold UserModel_preSave. destruct (User.password newUser); reflexivity. }
      apply (Hspec x Hin). congruence.
    + cbn [List.map]. apply NoDup_singleton.
Qed.

End Backend.

(** ** The model on the sample data *)

(** The application and the handlers with the sample behaviour of what
    stands outside [src/], no route for orders and favourites, and
    ["64b0000000000000000000aa"] as the next identifier. *)
Local Abbreviation sample_app :=
  (app sample_toObjectId sample_mongooseMessage "64b0000000000000000000aa" sample_hash
     sample_compare sample_createJwt sample_decodedJwt sample_verify 10 [] []).

Local Abbreviation sample_routes :=
  (routes sample_toObjectId sample_mongooseMessage "64b0000000000000000000aa" sample_hash
     sample_compare sample_createJwt sample_decodedJwt sample_verify 10 [] []).

Local Abbreviation sample_layers :=
  (layers sample_toObjectId sample_mongooseMessage "64b0000000000000000000aa" sample_hash
     sample_compare sample_createJwt sample_decodedJwt sample_verify 10 [] []).

Local Abbreviation sample_update :=
  (users_update_handler sample_toObjectId sample_mongooseMessage sample_hash sample_createJwt 10).

Local Abbreviation sample_delete_category :=
  (menu_delete_category sample_toObjectId sample_mongooseMessage sample_verify).

Local Ltac decide_it := apply (bool_decide_unpack _); vm_compute; exact I.

(** C3 on the seeded store: the category of the test item, written in
    upper case, lists the item; the second category has no item. *)
Lemma C3_witness :
  sample_toObjectId "64B00000000000000000000A" = Some "64b00000000000000000000a"
  /\ sample_app (bare GET ["menu"; "categories"; "64B00000000000000000000A"]) testStore
     = (testStore, Answered (mkResponse 200 (JObject [("result", JArray [JItem testItem])])))
  /\ sample_app (bare GET ["menu"; "categories"; "64b00000000000000000000b"]) testStore
     = (testStore,
        Answered (mkResponse 404 (message "There are currently no items in this category."))).
Proof.
  split; [reflexivity|]. split.
  - destruct (C3_items_by_category sample_toObjectId sample_mongooseMessage
                "64b0000000000000000000aa" sample_hash sample_compare sample_createJwt
                sample_decodedJwt sample_verify 10 [] []
                "64B00000000000000000000A"
                (bare GET ["menu"; "categories"; "64B00000000000000000000A"])
                testStore eq_refl eq_refl) as [Hcast _].
    destruct (Hcast "64b00000000000000000000a" eq_refl) as [_ [Hsome _]].
    apply Hsome. vm_compute. lia.
  - destruct (C3_items_by_category sample_toObjectId sample_mongooseMessage
                "64b0000000000000000000aa" sample_hash sample_compare sample_createJwt
                sample_decodedJwt sample_verify 10 [] []
                "64b00000000000000000000b"
                (bare GET ["menu"; "categories"; "64b00000000000000000000b"])
                testStore eq_refl eq_refl) as [Hcast _].
    destruct (Hcast "64b00000000000000000000b" eq_refl) as [Hnone _].
    apply Hnone. reflexivity.
Defined.

(** C3, against the claim as written: no item of the seeded store
    references the categoryId [nope], and GET /menu/categories/nope is not
    answered 404 with "There are currently no items in this category.": the
    cast of [nope] fails and the error responder answers 500. *)
Lemma C3_uncastable_category :
  (forall d, In d (items testStore) -> Item.category d <> Some "nope")
  /\ sample_app (bare GET ["menu"; "categories"; "nope"]) testStore
     = (testStore,
        Answered (mkResponse 500
          (JObject [("message", JString "Error Occured!");
                    ("error", JString "Cast to ObjectId failed for value nope")])))
  /\ sample_app (bare GET ["menu"; "categories"; "nope"]) testStore
     <> (testStore,
         Answered (mkResponse 404 (message "There are currently no items in this category."))).
Proof.
  split; [|split].
  - intros d [<-|[]]. discriminate.
  - reflexivity.
  - discriminate.
Defined.

(** C6 on the seeded store, at an identifier that no item has. *)
Lemma C6_witness :
  sample_toObjectId "64b0000000000000000000ff" = Some "64b0000000000000000000ff"
  /\ sample_app (bare GET ["menu"; "64b0000000000000000000ff"]) testStore
     = (testStore, Answered (mkResponse 404 (message "Item not found")))
  /\ sample_app (bare GET ["menu"; "64b0000000000000000000ff"]) testStore
     <> (testStore, Answered (mkResponse 404 (message "Item not found."))).
Proof.
  split; [reflexivity|].
  apply (C6_item_by_id sample_toObjectId sample_mongooseMessage
           "64b0000000000000000000aa" sample_hash sample_compare sample_createJwt
           sample_decodedJwt sample_verify 10 [] []
           "64b0000000000000000000ff" "64b0000000000000000000ff"
           (bare GET ["menu"; "64b0000000000000000000ff"])
           testStore eq_refl eq_refl eq_refl eq_refl).
  intros d [<-|[]]. discriminate.
Defined.

(** C1 on the seeded store: no token, a token that does not verify, and
    the token of the user who is no admin. *)
Lemma C1_witness :
  verifyJwt sample_verify (fun _ => respond 200 (message "in")) (bare POST ["x"]) testStore
  = (inr (mkResponse 401 (message "Authentication token is required")), testStore)
  /\ verifyJwt sample_verify (fun _ => respond 200 (message "in"))
       (mkRequest POST ["x"] (Some "badToken") ∅ ∅ None) testStore
     = (inr (mkResponse 401 (message "Invalid token")), testStore)
  /\ verifyJwt sample_verify
       (requireAdmin sample_toObjectId sample_mongooseMessage (fun _ => respond 200 (message "in")))
       (mkRequest POST ["x"] (Some "jwt.64b000000000000000000002") ∅ ∅ None) testStore
     = (inr (mkResponse 403 (message "Access denied! must be an admin.")), testStore).
Proof.
  split; [|split].
  - apply (C1_authentication_gate sample_toObjectId sample_mongooseMessage sample_verify).
    reflexivity.
  - exact (proj1 (proj2 (C1_authentication_gate sample_toObjectId sample_mongooseMessage
                           sample_verify (fun _ => respond 200 (message "in"))
                           (mkRequest POST ["x"] (Some "badToken") ∅ ∅ None) testStore))
             "badToken" eq_refl eq_refl).
  - refine (proj2 (proj2 (C1_authentication_gate sample_toObjectId sample_mongooseMessage
                            sample_verify (fun _ => respond 200 (message "in"))
                            (mkRequest POST ["x"] (Some "jwt.64b000000000000000000002") ∅ ∅ None)
                            testStore))
              "jwt.64b000000000000000000002" "64b000000000000000000002" testUser
              eq_refl eq_refl eq_refl _ _ eq_refl).
    + decide_it.
    + right. left. reflexivity.
Defined.


(** C4 on the seeded store: a signup with a fresh email, and one with the
    email of the test user. *)
Lemma C4_witness :
  let b : gmap string string :=
    <["email" := "new@test.com"]> (<["password" := "secret"]> {[ "name" := "New User" ]}) in
  let newUser :=
    User.mk "64b0000000000000000000aa" (Some "new@test.com") (Some (sample_hash "secret" 10))
      (Some "New User") None false in
  b !! "email" = Some "new@test.com"
  /\ sample_app (mkRequest POST ["users"; "signup"] None b ∅ None) testStore
     = (set_users [adminUser; testUser; newUser] testStore,
        Answered (mkResponse 201
          (JObject [("message", JString "Thank you for signing up to Three Beans New User!");
                    ("newUser", JUser newUser);
                    ("token", JString "jwt.64b0000000000000000000aa");
                    ("decodedJwt", JObject [("id", JString "64b0000000000000000000aa")])])))
  /\ sample_app
       (mkRequest POST ["users"; "signup"] None {[ "email" := "user@test.com" ]} ∅ None) testStore
     = (testStore,
        Answered (mkResponse 400 (message "A profile with this email already exists."))).
Proof.
  intros b newUser. split; [reflexivity|]. split.
  - refine (proj1 (proj2 (C4_signup sample_toObjectId sample_mongooseMessage
             "64b0000000000000000000aa" sample_hash sample_compare sample_createJwt
             sample_decodedJwt sample_verify 10 [] [] None b ∅ None testStore "new@test.com"
             eq_refl) "secret" "New User" eq_refl eq_refl _ _ _ _ _)).
    + discriminate.
    + discriminate.
    + discriminate.
    + intros u [<-|[<-|[]]]; discriminate.
    + intros u [<-|[<-|[]]]; discriminate.
  - refine (proj1 (C4_signup sample_toObjectId sample_mongooseMessage
             "64b0000000000000000000aa" sample_hash sample_compare sample_createJwt
             sample_decodedJwt sample_verify 10 [] [] None {[ "email" := "user@test.com" ]} ∅
             None testStore "user@test.com" eq_refl) _).
    exists testUser. split; [right; left; reflexivity|reflexivity].
Defined.

(** C5 on the seeded store: the test user patches the email they hold and
    a new password, and then the email of the admin. *)
Lemma C5_witness :
  let own : gmap string string :=
    <["email" := "user@test.com"]> {[ "password" := "newpass" ]} in
  let saved :=
    User.mk "64b000000000000000000002" (Some "user@test.com") (Some (sample_hash "newpass" 10))
      (Some "Test User") None false in
  sample_toObjectId (User._id testUser) = Some (User._id testUser)
  /\ sample_update (mkRequest PATCH ["users"; "update"] None own ∅ (Some (User._id testUser)))
       testStore
     = (inr (mkResponse 200
               (JObject [("message", JString "Profile updated successfully!");
                         ("token", JString "jwt.64b000000000000000000002")])),
        set_users [adminUser; saved] testStore)
  /\ fst (sample_update
            (mkRequest PATCH ["users"; "update"] None {[ "email" := "admin@test.com" ]} ∅
               (Some (User._id testUser)))
            testStore)
     = inr (mkResponse 400 (message "This email is already in use.")).
Proof.
  intros own saved. split; [reflexivity|]. split.
  - refine (proj1 (proj2 (proj2 (C5_update_email sample_toObjectId sample_mongooseMessage
             sample_hash sample_createJwt 10
             (mkRequest PATCH ["users"; "update"] None own ∅ (Some (User._id testUser)))
             testStore testUser "user@test.com" eq_refl eq_refl _ _ _ eq_refl _))) eq_refl eq_refl _).
    + right. left. reflexivity.
    + decide_it.
    + decide_it.
    + discriminate.
    + intros p _. discriminate.
  - refine (proj2 (proj1 (C5_update_email sample_toObjectId sample_mongooseMessage
             sample_hash sample_createJwt 10
             (mkRequest PATCH ["users"; "update"] None {[ "email" := "admin@test.com" ]} ∅
                (Some (User._id testUser)))
             testStore testUser "admin@test.com" eq_refl eq_refl _ _ _ eq_refl _)) _).
    + right. left. reflexivity.
    + decide_it.
    + decide_it.
    + discriminate.
    + exists adminUser. split; [left; reflexivity|]. split; [reflexivity|discriminate].
Defined.

(** C10 on the seeded store: the test user sends an empty name and a new
    birthday. *)
Lemma C10_witness :
  let b : gmap string string := <["name" := EmptyString]> {[ "birthday" := "1990-01-01" ]} in
  let request := mkRequest PATCH ["users"; "update"] None b ∅ (Some (User._id testUser)) in
  sample_toObjectId (User._id testUser) = Some (User._id testUser)
  /\ sample_update (set_body (delete "name" b) request) testStore = sample_update request testStore
  /\ exists u',
       In u' (users (snd (sample_update request testStore)))
       /\ User._id u' = User._id testUser
       /\ User.name u' = Some "Test User"
       /\ User.birthday u' = Some "1990-01-01".
Proof.
  intros b request. split; [reflexivity|].
  destruct (C10_update_patch sample_toObjectId sample_mongooseMessage sample_hash
              sample_createJwt 10 request testStore testUser eq_refl eq_refl
              (or_intror (or_introl eq_refl)) ltac:(decide_it))
    as [Habsent [[u' [Hin [Hid [_ [Hname [_ [_ [_ Happlied]]]]]]]] _]].
  split.
  - apply Habsent; [left; reflexivity|reflexivity].
  - exists u'. split; [exact Hin|]. split; [exact Hid|]. split; [exact (Hname eq_refl)|].
    destruct (Happlied (mkResponse 200
                (JObject [("message", JString "Profile updated successfully!");
                          ("token", JString "jwt.64b000000000000000000002")]))
                eq_refl eq_refl) as [_ [_ [_ Hbirthday]]].
    exact (Hbirthday eq_refl).
Defined.

(** C7, against the claim as written: POST /nope matches no registered
    route, and the application does not answer it with the 404 body of
    [app.get("*")]; no layer answers it at all. *)
Lemma C7_post_unmatched :
  find_layer sample_routes POST ["nope"] = None
  /\ sample_app (bare POST ["nope"]) testStore = (testStore, FinalHandler)
  /\ sample_app (bare POST ["nope"]) testStore
     <> (testStore, Answered (mkResponse 404 (message "404 Page not found"))).
Proof.
  split; [reflexivity|]. split; [reflexivity|]. discriminate.
Defined.

(** C7 on sample requests: GET /nope, DELETE /nope, and errors with a
    status, with none, with a status of zero, with the status of a response
    without a body and with a status that node refuses. *)
Lemma C7_witness :
  sample_app (bare GET ["nope"]) testStore
  = (testStore, Answered (mkResponse 404 (message "404 Page not found")))
  /\ sample_app (bare DELETE ["nope"]) testStore = (testStore, FinalHandler)
  /\ errorResponder (mkError (Some 400) "Unexpected token")
     = Answered (mkResponse 400 (JObject [("message", JString "Error Occured!");
                                          ("error", JString "Unexpected token")]))
  /\ errorResponder (mkError None "boom")
     = Answered (mkResponse 500 (JObject [("message", JString "Error Occured!");
                                          ("error", JString "boom")]))
  /\ errorResponder (mkError (Some 0) "boom")
     = Answered (mkResponse 500 (JObject [("message", JString "Error Occured!");
                                          ("error", JString "boom")]))
  /\ errorResponder (mkError (Some 204) "boom") = AnsweredHead 204
  /\ errorResponder (mkError (Some 99) "boom") = FinalHandler.
Proof.
  destruct (C7_unmatched_and_errors sample_toObjectId sample_mongooseMessage
              "64b0000000000000000000aa" sample_hash sample_compare sample_createJwt
              sample_decodedJwt sample_verify 10 [] []) as [Hget [Hother [Herror _]]].
  split; [exact (Hget (bare GET ["nope"]) testStore eq_refl eq_refl)|].
  split; [apply Hother; [discriminate|reflexivity]|].
  split; [|split; [|split; [|split]]].
  - apply (proj1 (proj2 (Herror (mkError (Some 400) "Unexpected token"))) 400 eq_refl); lia.
  - exact (proj1 (Herror (mkError None "boom")) (or_introl eq_refl)).
  - exact (proj1 (Herror (mkError (Some 0) "boom")) (or_intror eq_refl)).
  - apply (proj1 (proj2 (proj2 (Herror (mkError (Some 204) "boom")))) 204 eq_refl).
    right. left. reflexivity.
  - apply (proj2 (proj2 (proj2 (Herror (mkError (Some 99) "boom")))) 99 eq_refl). left. lia.
Defined.

(** C8, against the claim as written: an item with a negative price is
    accepted for persistence. *)
Lemma C8_negative_price_accepted :
  item_accepted sample_toObjectId negativeItem = true
  /\ Item.price negativeItem = Some (- (1 # 1))%Q
  /\ ~ (0 <= - (1 # 1))%Q.
Proof.
  split; [reflexivity|]. split; [reflexivity|].
  intros Hle. vm_compute in Hle. apply Hle. reflexivity.
Defined.

(** C8 on the sample items: the accepted item has a price, and its
    acceptance is that of the same item at any other price. *)
Lemma C8_witness :
  (exists p, Item.price negativeItem = Some p)
  /\ item_accepted sample_toObjectId (with_price (Some (- (1 # 1))%Q) negativeItem)
     = item_accepted sample_toObjectId (with_price (Some (5 # 1)) negativeItem).
Proof.
  destruct (C8_price_required_unbounded sample_toObjectId) as [Hprice Hany].
  split; [exact (Hprice negativeItem eq_refl)|apply Hany].
Defined.

Local Abbreviation sample_delete :=
  (users_delete_handler sample_toObjectId sample_mongooseMessage).

(** X3 on the seeded store: an unknown email, a wrong password and the
    right one. *)
Lemma login_outcomes_witness :
  snd (sample_app (mkRequest POST ["users"; "login"] None {[ "email" := "nobody@test.com" ]} ∅ None)
         testStore)
  = Answered (mkResponse 404
      (JObject [("status", JString "failed"); ("data", JArray []);
                ("message", JString "Email not found.")]))
  /\ snd (sample_app
            (mkRequest POST ["users"; "login"] None
               (<["email" := "user@test.com"]> {[ "password" := "password" ]}) ∅ None)
            testStore)
     = Answered (mkResponse 200
         (JObject [("message", JString "Test User has logged in successfully!");
                   ("token", JString "jwt.64b000000000000000000002")])).
Proof.
  split.
  - refine (proj1 (proj2 (login_outcomes sample_toObjectId sample_mongooseMessage
             "64b0000000000000000000aa" sample_hash sample_compare sample_createJwt
             sample_decodedJwt sample_verify 10 [] [] None {[ "email" := "nobody@test.com" ]} ∅ None
             testStore)) _).
    intros u [<-|[<-|[]]]; discriminate.
  - refine (proj2 (proj2 (login_outcomes sample_toObjectId sample_mongooseMessage
             "64b0000000000000000000aa" sample_hash sample_compare sample_createJwt
             sample_decodedJwt sample_verify 10 [] [] None
             (<["email" := "user@test.com"]> {[ "password" := "password" ]}) ∅ None
             testStore)) testUser _ _ eq_refl).
    + decide_it.
    + right. left. reflexivity.
Defined.

(** X4 on the seeded store: the test user deletes their profile. *)
Lemma delete_profile_witness :
  sample_toObjectId (User._id testUser) = Some (User._id testUser)
  /\ exists st',
       sample_delete (mkRequest DELETE ["users"; "delete"] None ∅ ∅ (Some (User._id testUser)))
         testStore
       = (inr (mkResponse 200 (message "User Test User deleted successfully.")), st')
       /\ (forall v, In v (users st') <-> In v (users testStore) /\ v <> testUser)
       /\ items st' = items testStore
       /\ categories st' = categories testStore.
Proof.
  split; [reflexivity|].
  refine (proj2 (delete_profile sample_toObjectId sample_mongooseMessage
            (mkRequest DELETE ["users"; "delete"] None ∅ ∅ (Some (User._id testUser)))
            testStore (User._id testUser) eq_refl eq_refl) testUser _ _ eq_refl).
  - decide_it.
  - right. left. reflexivity.
Defined.

(** X5 on the seeded store: the test user deletes their profile twice. *)
Lemma delete_profile_then_witness :
  let request := mkRequest DELETE ["users"; "delete"] None ∅ ∅ (Some (User._id testUser)) in
  let st' := set_users [adminUser] testStore in
  snd (sample_delete request testStore) = st'
  /\ sample_delete request st' = (inr (mkResponse 404 (message "User not found.")), st').
Proof.
  intros request st'. split; [reflexivity|].
  refine (proj1 (delete_profile_then sample_toObjectId sample_mongooseMessage sample_hash
            sample_createJwt 10 request testStore testUser eq_refl eq_refl _ _)).
  - decide_it.
  - right. left. reflexivity.
Defined.

(** X6, X7 and X8 on the seeded store: GET /menu/whatever/else is
    answered and GET /Menu/<id> writes nothing; POST /USERS/Login runs a
    route, and DELETE /menu/delete/category/<id>, which the tests call,
    matches none. *)
Lemma get_always_answered_witness :
  exists response,
    snd (sample_app (bare GET ["menu"; "whatever"; "else"]) testStore) = Answered response.
Proof.
  exact (get_always_answered sample_toObjectId sample_mongooseMessage
           "64b0000000000000000000aa" sample_hash sample_compare sample_createJwt
           sample_decodedJwt sample_verify 10 [] []
           (bare GET ["menu"; "whatever"; "else"]) testStore eq_refl eq_refl eq_refl).
Defined.

Lemma mutation_routes_witness :
  (exists r ps, find_layer sample_layers POST ["USERS"; "Login"] = Some (r, ps))
  /\ sample_app (bare DELETE ["menu"; "delete"; "category"; "64b00000000000000000000a"])
       testStore
     = (testStore, FinalHandler).
Proof.
  split.
  - destruct (mutation_routes sample_toObjectId sample_mongooseMessage
                "64b0000000000000000000aa" sample_hash sample_compare sample_createJwt
                sample_decodedJwt sample_verify 10 [] []
                (bare POST ["USERS"; "Login"]) testStore
                ltac:(discriminate) eq_refl eq_refl) as [Hlisted _].
    destruct Hlisted as [r [ps [Hfound _]]]; [right; left; reflexivity|].
    exists r, ps. exact Hfound.
  - destruct (mutation_routes sample_toObjectId sample_mongooseMessage
                "64b0000000000000000000aa" sample_hash sample_compare sample_createJwt
                sample_decodedJwt sample_verify 10 [] []
                (bare DELETE ["menu"; "delete"; "category"; "64b00000000000000000000a"])
                testStore ltac:(discriminate) eq_refl eq_refl) as [_ [Hnone _]].
    apply Hnone. intros [H|[H|[H|[H|[]]]]]; discriminate H.
Defined.

Lemma get_never_writes_witness :
  fst (sample_app (bare GET ["Menu"; "64b0000000000000000000f1"]) testStore) = testStore.
Proof.
  exact (get_never_writes sample_toObjectId sample_mongooseMessage
           "64b0000000000000000000aa" sample_hash sample_compare sample_createJwt
           sample_decodedJwt sample_verify 10 [] []
           (bare GET ["Menu"; "64b0000000000000000000f1"]) testStore eq_refl eq_refl eq_refl).
Defined.

(** X9 on the seeded store: GET /menu/items, as the tests call it. *)
Lemma menu_param_cast_error_witness :
  sample_toObjectId "items" = None
  /\ sample_app (bare GET ["menu"; "items"]) testStore
     = (testStore,
        Answered (mkResponse 500
          (JObject [("message", JString "Error Occured!");
                    ("error", JString "Cast to ObjectId failed for value items")]))).
Proof.
  split; [reflexivity|].
  exact (proj1 (menu_param_cast_error sample_toObjectId sample_mongooseMessage
            "64b0000000000000000000aa" sample_hash sample_compare sample_createJwt
            sample_decodedJwt sample_verify 10 [] [] "items" None ∅ ∅ None testStore eq_refl)
           eq_refl).
Defined.

(** X10 on the seeded store: the test item, its identifier written in
    upper case. *)
Lemma listed_item_fetched_witness :
  sample_app (bare GET ["menu"; "64B0000000000000000000F1"]) testStore
  = (testStore, Answered (mkResponse 200 (JObject [("result", JItem testItem)]))).
Proof.
  refine (proj2 (listed_item_fetched sample_toObjectId sample_mongooseMessage
            "64b0000000000000000000aa" sample_hash sample_compare sample_createJwt
            sample_decodedJwt sample_verify 10 [] [] testItem "64B0000000000000000000F1"
            None ∅ ∅ None testStore _ eq_refl eq_refl _)).
  - decide_it.
  - left. reflexivity.
Defined.

(** X11 and X12 on the seeded store: a new user signs up, then signs up
    again, then logs in. *)
Lemma signup_twice_witness :
  let b : gmap string string :=
    <["email" := "new@test.com"]> (<["password" := "secret"]> {[ "name" := "New User" ]}) in
  let st1 := fst (sample_app (mkRequest POST ["users"; "signup"] None b ∅ None) testStore) in
  length (users st1) = 3
  /\ sample_app (mkRequest POST ["users"; "signup"] None {[ "email" := "new@test.com" ]} ∅ None) st1
     = (st1, Answered (mkResponse 400 (message "A profile with this email already exists."))).
Proof.
  intros b st1. split; [reflexivity|].
  apply (signup_twice sample_toObjectId sample_mongooseMessage
           "64b0000000000000000000aa" sample_hash sample_compare sample_createJwt
           sample_decodedJwt sample_verify 10 [] [] None None b {[ "email" := "new@test.com" ]}
           ∅ ∅ None None testStore "new@test.com" "secret" "New User" eq_refl eq_refl eq_refl).
  - discriminate.
  - discriminate.
  - discriminate.
  - intros u [<-|[<-|[]]]; discriminate.
  - intros u [<-|[<-|[]]]; discriminate.
  - reflexivity.
Defined.

Lemma signup_then_login_witness :
  let b : gmap string string :=
    <["email" := "new@test.com"]> (<["password" := "secret"]> {[ "name" := "New User" ]}) in
  let st1 := fst (sample_app (mkRequest POST ["users"; "signup"] None b ∅ None) testStore) in
  sample_compare (Some "secret") (Some (sample_hash "secret" 10)) = inr true
  /\ sample_app (mkRequest POST ["users"; "login"] None b ∅ None) st1
     = (st1,
        Answered (mkResponse 200
          (JObject [("message", JString "New User has logged in successfully!");
                    ("token", JString "jwt.64b0000000000000000000aa")]))).
Proof.
  intros b st1. split; [reflexivity|].
  apply (signup_then_login sample_toObjectId sample_mongooseMessage
           "64b0000000000000000000aa" sample_hash sample_compare sample_createJwt
           sample_decodedJwt sample_verify 10 [] [] None None b ∅ ∅ None None testStore
           "new@test.com" "secret" "New User" eq_refl eq_refl eq_refl).
  - discriminate.
  - discriminate.
  - discriminate.
  - intros u [<-|[<-|[]]]; discriminate.
  - intros u [<-|[<-|[]]]; discriminate.
  - reflexivity.
Defined.

(** X13 on the seeded store: an identity that no user has, and one that is
    no identifier. *)
Lemma update_unknown_identity_witness :
  sample_update
    (mkRequest PATCH ["users"; "update"] None {[ "name" := "Ghost" ]} ∅
       (Some "64b0000000000000000000ff"))
    testStore
  = (inr (mkResponse 404 (message "User not found.")), testStore)
  /\ sample_update
       (mkRequest PATCH ["users"; "update"] None {[ "name" := "Ghost" ]} ∅ (Some "me")) testStore
     = (inl (mkError None "Cast to ObjectId failed for value me"), testStore).
Proof.
  split.
  - refine (proj1 (update_unknown_identity sample_toObjectId sample_mongooseMessage sample_hash
              sample_createJwt 10
              (mkRequest PATCH ["users"; "update"] None {[ "name" := "Ghost" ]} ∅
                 (Some "64b0000000000000000000ff"))
              testStore "64b0000000000000000000ff" eq_refl)
              "64b0000000000000000000ff" eq_refl _).
    intros v [<-|[<-|[]]]; discriminate.
  - exact (proj1 (proj2 (update_unknown_identity sample_toObjectId sample_mongooseMessage
              sample_hash sample_createJwt 10
              (mkRequest PATCH ["users"; "update"] None {[ "name" := "Ghost" ]} ∅ (Some "me"))
              testStore "me" eq_refl) eq_refl)).
Defined.

(** X14 on the seeded store: the test user takes a new email, which the
    admin does not hold. *)
Lemma update_keeps_unique_witness :
  let request :=
    mkRequest PATCH ["users"; "update"] None {[ "email" := "other@test.com" ]} ∅
      (Some (User._id testUser)) in
  (forall x, In x (users testStore) -> User._id x <> User._id testUser ->
             User.email x <> Some "other@test.com")
  /\ NoDup (List.map User.email
              (replace_user (set_email (Some "other@test.com") testUser) (users testStore))).
Proof.
  intros request.
  destruct (update_keeps_unique sample_toObjectId sample_mongooseMessage sample_hash
              sample_createJwt 10 request testStore testUser eq_refl eq_refl
              ltac:(decide_it) ltac:(decide_it) (or_intror (or_introl eq_refl)))
    as [Hrefused|[_ [Hfree [_ Hemails]]]].
  - vm_compute in Hrefused. discriminate Hrefused.
  - split; [exact Hfree|exact Hemails].
Defined.
